(** * Jenkins/deploy.py: the ECS Fargate deployment script

    A shallow embedding of [src/Jenkins/deploy.py].  The script is a straight
    line of boto3 calls, so the embedding is a small state-and-error monad:
    a computation takes the state of the AWS account (and of the local file
    system) and returns an outcome, the new state and the chronological log
    of what it did (remote calls issued and lines printed).

    The remote services answer from the state of the account.  They raise
    what this state and the request determine: a parameter, a target group
    or a cluster that is not there, a service that is not active, a name, a
    port, a network or a subnet that the service refuses; botocore refuses
    an empty parameter name and a port below 1 before it sends anything.
    Faults of the transport, of IAM and of quotas are outside the model, and
    so is every check of the orchestrator that is not listed with
    [ecs_register_task_definition], [ecs_create_service] and
    [ecs_update_service] below: the statements on the mutations of a
    service are about the requests that the script sends, whatever the
    orchestrator answers. *)

From stdpp Require Import gmap strings list fin_maps pretty.
From Stdlib Require Import Ascii ZArith Lia.

Set Warnings "-register-all".

Open Scope string_scope.
Open Scope list_scope.

Arguments String.append : simpl never.

(** ** Python strings *)

Module PyStr.

(** [s.split(sep)] for a separator of one character: every occurrence of
    the separator cuts, nothing is trimmed and empty pieces are kept. *)
Fixpoint split (sep : ascii) (s : string) : list string :=
  match s with
  | EmptyString => [EmptyString]
  | String c s' =>
      if Ascii.eqb c sep then EmptyString :: split sep s'
      else match split sep s' with
           | [] => [String c EmptyString]
           | piece :: pieces => String c piece :: pieces
           end
  end.

(** [sep.join(pieces)] *)
Fixpoint join (sep : string) (pieces : list string) : string :=
  match pieces with
  | [] => EmptyString
  | [piece] => piece
  | piece :: rest => piece +:+ sep +:+ join sep rest
  end.

(** [s.startswith(p)] *)
Fixpoint startswith (p s : string) : bool :=
  match p, s with
  | EmptyString, _ => true
  | String a p', String b s' => Ascii.eqb a b && startswith p' s'
  | String _ _, EmptyString => false
  end.

(** [old in s] *)
Fixpoint contains (old s : string) : bool :=
  startswith old s ||
  match s with
  | EmptyString => false
  | String _ s' => contains old s'
  end.

(** [s.replace(old, new)] for a non-empty [old]: the occurrences are found
    from the left and do not overlap.  [skip] counts the characters of a
    matched occurrence that are still to be dropped. *)
Fixpoint replace_from (old new : string) (skip : nat) (s : string) : string :=
  match s with
  | EmptyString => EmptyString
  | String c s' =>
      match skip with
      | S k => replace_from old new k s'
      | O =>
          if startswith old s
          then new +:+ replace_from old new (String.length old - 1) s'
          else String c (replace_from old new 0 s')
      end
  end.

Definition replace (old new s : string) : string := replace_from old new 0 s.

End PyStr.

(** ** Values read from the configuration file *)

(** What [yaml.safe_load] returns.  A mapping is the resulting [dict] in
    its iteration order, with string keys. *)
Inductive yaml : Type :=
| YNull
| YBool (b : bool)
| YInt (z : Z)
| YStr (s : string)
| YSeq (l : list yaml)
| YMap (kvs : list (string * yaml)).

(** ** Exceptions and outcomes *)

Inductive exn : Type :=
| OSError (msg : string)
| YAMLError (msg : string)
| KeyError (key : string)
| TypeError (msg : string)
| AttributeError (msg : string)
| IndexError (msg : string)
| ParamValidationError (msg : string)
| ParameterNotFound
| TargetGroupNotFoundException
| DuplicateTargetGroupNameException
| ValidationError (msg : string)
| ClusterNotFoundException
| InvalidParameterException
| ServiceNotFoundException
| ServiceNotActiveException.

(** [str(e)], as the configuration diagnostic formats it. *)
Definition exn_str (e : exn) : string :=
  match e with
  | OSError msg | YAMLError msg | TypeError msg | AttributeError msg
  | IndexError msg | ParamValidationError msg | ValidationError msg => msg
  | KeyError key => "'" +:+ key +:+ "'"
  | ParameterNotFound => "ParameterNotFound"
  | TargetGroupNotFoundException => "TargetGroupNotFound"
  | DuplicateTargetGroupNameException => "DuplicateTargetGroupName"
  | ClusterNotFoundException => "ClusterNotFoundException"
  | InvalidParameterException => "InvalidParameterException"
  | ServiceNotFoundException => "ServiceNotFoundException"
  | ServiceNotActiveException => "ServiceNotActiveException"
  end.

(** A computation returns, raises, or leaves through [sys.exit(code)].
    [SystemExit] is not an [Exception]: no handler of the script catches it. *)
Inductive outcome (A : Type) : Type :=
| Ret (a : A)
| Raise (e : exn)
| Exit (code : Z).
Arguments Ret {A} a.
Arguments Raise {A} e.
Arguments Exit {A} code.


(** ** Requests of the remote calls *)

Record CreateTargetGroupReq : Type := {
  ctg_Name : string;
  ctg_Protocol : string;
  ctg_Port : Z;
  ctg_VpcId : string;
  ctg_TargetType : string;
  ctg_HealthCheckProtocol : string;
  ctg_HealthCheckPath : string;
  ctg_MatcherHttpCode : string
}.

Record PortMapping : Type := {
  pm_containerPort : Z;
  pm_protocol : string
}.

Record Secret : Type := {
  sec_name : string;
  sec_valueFrom : string
}.

Record LogConfiguration : Type := {
  log_logDriver : string;
  log_awslogs_group : string;
  log_awslogs_region : string;
  log_awslogs_stream_prefix : string
}.

Record ContainerDefinition : Type := {
  cd_name : string;
  cd_image : string;
  cd_essential : bool;
  cd_portMappings : list PortMapping;
  cd_secrets : list Secret;
  cd_logConfiguration : LogConfiguration
}.

Record RegisterTaskDefinitionReq : Type := {
  rtd_family : string;
  rtd_networkMode : string;
  rtd_requiresCompatibilities : list string;
  rtd_cpu : string;
  rtd_memory : string;
  rtd_executionRoleArn : string;
  rtd_taskRoleArn : string;
  rtd_containerDefinitions : list ContainerDefinition
}.

Record LoadBalancer : Type := {
  lb_targetGroupArn : string;
  lb_containerName : string;
  lb_containerPort : Z
}.

Record CreateServiceReq : Type := {
  cs_cluster : string;
  cs_serviceName : string;
  cs_taskDefinition : string;
  cs_launchType : string;
  cs_desiredCount : Z;
  cs_subnets : list string;
  cs_securityGroups : list string;
  cs_assignPublicIp : string;
  cs_loadBalancers : list LoadBalancer
}.

Record UpdateServiceReq : Type := {
  us_cluster : string;
  us_service : string;
  us_taskDefinition : string;
  us_forceNewDeployment : bool
}.

(** A remote call, as it leaves the process. *)
Inductive Call : Type :=
| StsGetCallerIdentity
| SsmGetParameter (name : string)
| Elbv2DescribeTargetGroups (names : list string)
| Elbv2CreateTargetGroup (req : CreateTargetGroupReq)
| EcsRegisterTaskDefinition (req : RegisterTaskDefinitionReq)
| EcsDescribeServices (cluster : string) (services : list string)
| EcsCreateService (req : CreateServiceReq)
| EcsUpdateService (req : UpdateServiceReq).

(** What a run does that can be observed from outside. *)
Inductive Event : Type :=
| Called (c : Call)
| Printed (line : string).

(** ** State of the account and of the file system *)

Record TargetGroup : Type := {
  TargetGroupArn : string;
  tg_config : CreateTargetGroupReq
}.

Record Service : Type := {
  serviceArn : string;
  status : string;
  taskDefinition : string
}.

Inductive file : Type :=
| Unreadable (msg : string)
| Malformed (msg : string)
| Document (doc : yaml).

Record World : Type := {
  region_name : string;
  account : string;
  ssm_parameters : gmap string string;
  target_groups : gmap string TargetGroup;
  task_definitions : list RegisterTaskDefinitionReq;
  services : gmap (string * string) Service;
  clusters : gset string;
  vpcs : gset string;
  subnet_ids : gset string;
  security_group_ids : gset string;
  files : gmap string file
}.

Definition set_target_groups (tgs : gmap string TargetGroup) (w : World) : World :=
  {| region_name := region_name w; account := account w;
     ssm_parameters := ssm_parameters w; target_groups := tgs;
     task_definitions := task_definitions w; services := services w;
     clusters := clusters w; vpcs := vpcs w; subnet_ids := subnet_ids w;
     security_group_ids := security_group_ids w; files := files w |}.

Definition set_task_definitions (tds : list RegisterTaskDefinitionReq) (w : World) : World :=
  {| region_name := region_name w; account := account w;
     ssm_parameters := ssm_parameters w; target_groups := target_groups w;
     task_definitions := tds; services := services w;
     clusters := clusters w; vpcs := vpcs w; subnet_ids := subnet_ids w;
     security_group_ids := security_group_ids w; files := files w |}.

Definition set_services (svs : gmap (string * string) Service) (w : World) : World :=
  {| region_name := region_name w; account := account w;
     ssm_parameters := ssm_parameters w; target_groups := target_groups w;
     task_definitions := task_definitions w; services := svs;
     clusters := clusters w; vpcs := vpcs w; subnet_ids := subnet_ids w;
     security_group_ids := security_group_ids w; files := files w |}.

Definition set_ssm_parameters (ps : gmap string string) (w : World) : World :=
  {| region_name := region_name w; account := account w;
     ssm_parameters := ps; target_groups := target_groups w;
     task_definitions := task_definitions w; services := services w;
     clusters := clusters w; vpcs := vpcs w; subnet_ids := subnet_ids w;
     security_group_ids := security_group_ids w; files := files w |}.

(** ** The monad of the script *)

Record Res (A : Type) : Type := mkRes {
  out : outcome A;
  world : World;
  events : list Event
}.
Arguments mkRes {A} out world events.
Arguments out {A} r.
Arguments world {A} r.
Arguments events {A} r.

Definition M (A : Type) : Type := World -> Res A.

Definition ret {A} (a : A) : M A := fun w => mkRes (Ret a) w [].

Definition raise {A} (e : exn) : M A := fun w => mkRes (Raise e) w [].

(** [sys.exit(code)] *)
Definition sys_exit {A} (code : Z) : M A := fun w => mkRes (Exit code) w [].

Definition bind {A B} (m : M A) (k : A -> M B) : M B := fun w =>
  match m w with
  | mkRes (Ret a) w1 ev1 =>
      match k a w1 with
      | mkRes o w2 ev2 => mkRes o w2 (ev1 ++ ev2)
      end
  | mkRes (Raise e) w1 ev1 => mkRes (Raise e) w1 ev1
  | mkRes (Exit code) w1 ev1 => mkRes (Exit code) w1 ev1
  end.

(** [try: m  except ...: handler]: [handler e] is [None] when no [except]
    clause matches [e]. *)
Definition try_except {A} (m : M A) (handler : exn -> option (M A)) : M A := fun w =>
  match m w with
  | mkRes (Raise e) w1 ev1 =>
      match handler e with
      | Some h =>
          match h w1 with
          | mkRes o w2 ev2 => mkRes o w2 (ev1 ++ ev2)
          end
      | None => mkRes (Raise e) w1 ev1
      end
  | r => r
  end.

Declare Scope script_scope.
Delimit Scope script_scope with script.
Notation "'let!' x ':=' m 'in' k" := (bind m (fun x => k))
  (at level 10, x name, m at level 200, k at level 200) : script_scope.
Notation "m >> k" := (bind m (fun _ => k))
  (at level 100, k at level 200, right associativity) : script_scope.
Open Scope script_scope.

Definition print (line : string) : M unit := fun w => mkRes (Ret tt) w [Printed line].

(** How often the events selected by [f] occur in a log. *)
Fixpoint count_events (f : Event -> bool) (l : list Event) : nat :=
  match l with
  | [] => 0
  | e :: l' => (if f e then 1 else 0) + count_events f l'
  end.

Definition is_call (e : Event) : bool :=
  match e with Called _ => true | Printed _ => false end.

Definition is_register (e : Event) : bool :=
  match e with Called (EcsRegisterTaskDefinition _) => true | _ => false end.

Definition is_create_service (e : Event) : bool :=
  match e with Called (EcsCreateService _) => true | _ => false end.

Definition is_update_service (e : Event) : bool :=
  match e with Called (EcsUpdateService _) => true | _ => false end.

Definition is_create_target_group (e : Event) : bool :=
  match e with Called (Elbv2CreateTargetGroup _) => true | _ => false end.

(** The remote calls of a log, in the order in which they were issued. *)
Fixpoint calls_of (l : list Event) : list Call :=
  match l with
  | [] => []
  | Called c :: l' => c :: calls_of l'
  | Printed _ :: l' => calls_of l'
  end.

(** ** The local side: files, YAML, Python objects *)

(** [open(path)] followed by [yaml.safe_load(f)]: the first raises when
    the file cannot be opened, the second when its text is not YAML. *)
Definition py_open (path : string) : M file := fun w =>
  match files w !! path with
  | None => mkRes (Raise (OSError ("[Errno 2] No such file or directory: '" +:+ path +:+ "'"))) w []
  | Some (Unreadable msg) => mkRes (Raise (OSError msg)) w []
  | Some f => mkRes (Ret f) w []
  end.

Definition yaml_safe_load (f : file) : M yaml :=
  match f with
  | Document doc => ret doc
  | Malformed msg => raise (YAMLError msg)
  | Unreadable msg => raise (OSError msg)
  end.

(** [d[key]] on a [dict] *)
Fixpoint dict_get (key : string) (kvs : list (string * yaml)) : option yaml :=
  match kvs with
  | [] => None
  | (k, v) :: kvs' => if String.eqb k key then Some v else dict_get key kvs'
  end.

(** [obj[key]] for a string [key] *)
Definition subscript (obj : yaml) (key : string) : M yaml :=
  match obj with
  | YMap kvs =>
      match dict_get key kvs with
      | Some v => ret v
      | None => raise (KeyError key)
      end
  | YNull => raise (TypeError "'NoneType' object is not subscriptable")
  | YBool _ => raise (TypeError "'bool' object is not subscriptable")
  | YInt _ => raise (TypeError "'int' object is not subscriptable")
  | YStr _ => raise (TypeError "string indices must be integers, not 'str'")
  | YSeq _ => raise (TypeError "list indices must be integers or slices, not str")
  end.

(** [obj.items()] *)
Definition items (obj : yaml) : M (list (string * yaml)) :=
  match obj with
  | YMap kvs => ret kvs
  | YNull => raise (AttributeError "'NoneType' object has no attribute 'items'")
  | YBool _ => raise (AttributeError "'bool' object has no attribute 'items'")
  | YInt _ => raise (AttributeError "'int' object has no attribute 'items'")
  | YStr _ => raise (AttributeError "'str' object has no attribute 'items'")
  | YSeq _ => raise (AttributeError "'list' object has no attribute 'items'")
  end.

(** [l[0]] *)
Definition first {A} (l : list A) : M A :=
  match l with
  | a :: _ => ret a
  | [] => raise (IndexError "list index out of range")
  end.

(** ** The remote side: STS, SSM, ELBv2, ECS *)

(** [boto3.session.Session().region_name]: read from the local session,
    no request is sent. *)
Definition session_region_name : M string := fun w => mkRes (Ret (region_name w)) w [].

(** [sts.get_caller_identity()['Account']] *)
Definition sts_get_caller_identity_account : M string := fun w =>
  mkRes (Ret (account w)) w [Called StsGetCallerIdentity].

(** [ssm.get_parameter(Name=name)]: the response carries the stored value.
    botocore refuses the empty name before it sends anything; no parameter
    is stored under the empty name, so that the lookup can be written
    first. *)
Definition ssm_get_parameter (name : string) : M string := fun w =>
  match ssm_parameters w !! name with
  | Some value => mkRes (Ret value) w [Called (SsmGetParameter name)]
  | None =>
      if String.eqb name ""
      then mkRes (Raise (ParamValidationError
                           "Parameter validation failed: Invalid length for parameter Name, value: 0, valid min length: 1"))
                 w []
      else mkRes (Raise ParameterNotFound) w [Called (SsmGetParameter name)]
  end.

(** [elbv2.describe_target_groups(Names=names)['TargetGroups']]: raises
    when one of the names is unknown. *)
Fixpoint lookup_target_groups (tgs : gmap string TargetGroup) (names : list string)
  : option (list TargetGroup) :=
  match names with
  | [] => Some []
  | n :: names' =>
      match tgs !! n, lookup_target_groups tgs names' with
      | Some tg, Some found => Some (tg :: found)
      | _, _ => None
      end
  end.

Definition elbv2_describe_target_groups (names : list string) : M (list TargetGroup) := fun w =>
  match lookup_target_groups (target_groups w) names with
  | Some found => mkRes (Ret found) w [Called (Elbv2DescribeTargetGroups names)]
  | None => mkRes (Raise TargetGroupNotFoundException) w [Called (Elbv2DescribeTargetGroups names)]
  end.

Definition ctg_eqb (a b : CreateTargetGroupReq) : bool :=
  String.eqb (ctg_Name a) (ctg_Name b) && String.eqb (ctg_Protocol a) (ctg_Protocol b)
  && Z.eqb (ctg_Port a) (ctg_Port b) && String.eqb (ctg_VpcId a) (ctg_VpcId b)
  && String.eqb (ctg_TargetType a) (ctg_TargetType b)
  && String.eqb (ctg_HealthCheckProtocol a) (ctg_HealthCheckProtocol b)
  && String.eqb (ctg_HealthCheckPath a) (ctg_HealthCheckPath b)
  && String.eqb (ctg_MatcherHttpCode a) (ctg_MatcherHttpCode b).

(** The identifier the load-balancing service gives to a new group: the
    name is unique in the account, the suffix is picked by the service. *)
Definition new_target_group_arn (w : World) (name : string) : string :=
  "arn:aws:elasticloadbalancing:" +:+ region_name w +:+ ":" +:+ account w
  +:+ ":targetgroup/" +:+ name +:+ "/" +:+ pretty (size (target_groups w)).

(** The names that the load-balancing service accepts for a target group:
    at most 32 characters, letters, digits and hyphens, no hyphen at either
    end. *)
Definition is_alnum (c : ascii) : bool :=
  let n := nat_of_ascii c in
  (Nat.leb 48 n && Nat.leb n 57) || (Nat.leb 65 n && Nat.leb n 90)
  || (Nat.leb 97 n && Nat.leb n 122).

Fixpoint all_chars (f : ascii -> bool) (s : string) : bool :=
  match s with
  | EmptyString => true
  | String c s' => f c && all_chars f s'
  end.

Fixpoint last_char (s : string) : option ascii :=
  match s with
  | EmptyString => None
  | String c EmptyString => Some c
  | String _ s' => last_char s'
  end.

Definition valid_target_group_name (name : string) : bool :=
  Nat.leb (String.length name) 32
  && all_chars (fun c => is_alnum c || Ascii.eqb c "-") name
  && match name with
     | EmptyString => false
     | String c _ => negb (Ascii.eqb c "-")
     end
  && match last_char name with
     | Some c => negb (Ascii.eqb c "-")
     | None => false
     end.

(** The service accepts the request: the name is valid, the port is a
    port, the network is one of the account. *)
Definition target_group_request_accepted (w : World) (req : CreateTargetGroupReq) : bool :=
  valid_target_group_name (ctg_Name req)
  && Z.leb (ctg_Port req) 65535
  && bool_decide (ctg_VpcId req ∈ vpcs w).

(** [elbv2.create_target_group(...)['TargetGroups']].  botocore refuses a
    port below 1 before it sends anything; the service refuses a request
    that is not acceptable.  A group of that name with the same settings is
    returned as it is, one with other settings is a name clash. *)
Definition elbv2_create_target_group (req : CreateTargetGroupReq) : M (list TargetGroup) := fun w =>
  if Z.ltb (ctg_Port req) 1
  then mkRes (Raise (ParamValidationError
                       "Parameter validation failed: Invalid value for parameter Port, valid min value: 1"))
             w []
  else if negb (target_group_request_accepted w req)
  then mkRes (Raise (ValidationError "The target group request is not valid"))
             w [Called (Elbv2CreateTargetGroup req)]
  else
    match target_groups w !! ctg_Name req with
    | Some tg =>
        if ctg_eqb (tg_config tg) req
        then mkRes (Ret [tg]) w [Called (Elbv2CreateTargetGroup req)]
        else mkRes (Raise DuplicateTargetGroupNameException) w
                   [Called (Elbv2CreateTargetGroup req)]
    | None =>
        let tg := {| TargetGroupArn := new_target_group_arn w (ctg_Name req);
                     tg_config := req |} in
        mkRes (Ret [tg]) (set_target_groups (<[ctg_Name req := tg]> (target_groups w)) w)
              [Called (Elbv2CreateTargetGroup req)]
    end.

(** The revisions of a family are numbered from 1 in the order of their
    registration. *)
Fixpoint revisions (family : string) (tds : list RegisterTaskDefinitionReq) : nat :=
  match tds with
  | [] => 0
  | td :: tds' => (if String.eqb (rtd_family td) family then 1 else 0) + revisions family tds'
  end.

Definition task_definition_arn (w : World) (family : string) (revision : nat) : string :=
  "arn:aws:ecs:" +:+ region_name w +:+ ":" +:+ account w
  +:+ ":task-definition/" +:+ family +:+ ":" +:+ pretty revision.

(** [ecs.register_task_definition(...)['taskDefinition']['taskDefinitionArn']]:
    always a new revision. *)
Definition ecs_register_task_definition (req : RegisterTaskDefinitionReq) : M string := fun w =>
  let revision := S (revisions (rtd_family req) (task_definitions w)) in
  mkRes (Ret (task_definition_arn w (rtd_family req) revision))
        (set_task_definitions (task_definitions w ++ [req]) w)
        [Called (EcsRegisterTaskDefinition req)].

(** [ecs.describe_services(cluster=c, services=names)['services']]: the
    services that are known, the others are left out of the answer. *)
Fixpoint lookup_services (svs : gmap (string * string) Service) (c : string)
  (names : list string) : list Service :=
  match names with
  | [] => []
  | n :: names' =>
      match svs !! (c, n) with
      | Some sv => sv :: lookup_services svs c names'
      | None => lookup_services svs c names'
      end
  end.

(** A service lives in a cluster: when none of the names is known, the
    answer is empty for a cluster of the account and an exception for a
    cluster that is not there. *)
Definition ecs_describe_services (c : string) (names : list string) : M (list Service) := fun w =>
  match lookup_services (services w) c names with
  | [] =>
      if bool_decide (c ∈ clusters w)
      then mkRes (Ret []) w [Called (EcsDescribeServices c names)]
      else mkRes (Raise ClusterNotFoundException) w [Called (EcsDescribeServices c names)]
  | found => mkRes (Ret found) w [Called (EcsDescribeServices c names)]
  end.

Definition service_arn (w : World) (c name : string) : string :=
  "arn:aws:ecs:" +:+ region_name w +:+ ":" +:+ account w
  +:+ ":service/" +:+ c +:+ "/" +:+ name.

(** The subnets and the security groups of the request are subnets and
    security groups of the account, and there is a subnet. *)
Definition networks_known (w : World) (req : CreateServiceReq) : bool :=
  match cs_subnets req with
  | [] => false
  | _ => forallb (fun s => bool_decide (s ∈ subnet_ids w)) (cs_subnets req)
  end
  && forallb (fun g => bool_decide (g ∈ security_group_ids w)) (cs_securityGroups req).

Arguments networks_known : simpl never.

(** [ecs.create_service(...)]: refused for a cluster that is not there,
    while a service of that name is still active or draining, and for
    subnets or security groups that the account does not have. *)
Definition ecs_create_service (req : CreateServiceReq) : M unit := fun w =>
  let key := (cs_cluster req, cs_serviceName req) in
  let sv := {| serviceArn := service_arn w (cs_cluster req) (cs_serviceName req);
               status := "ACTIVE"; taskDefinition := cs_taskDefinition req |} in
  let created :=
    if networks_known w req
    then mkRes (Ret tt) (set_services (<[key := sv]> (services w)) w)
               [Called (EcsCreateService req)]
    else mkRes (Raise InvalidParameterException) w [Called (EcsCreateService req)] in
  match services w !! key with
  | None =>
      if bool_decide (cs_cluster req ∈ clusters w) then created
      else mkRes (Raise ClusterNotFoundException) w [Called (EcsCreateService req)]
  | Some old =>
      if String.eqb (status old) "INACTIVE" then created
      else mkRes (Raise InvalidParameterException) w [Called (EcsCreateService req)]
  end.

(** [ecs.update_service(...)]: only an active service can be updated. *)
Definition ecs_update_service (req : UpdateServiceReq) : M unit := fun w =>
  let key := (us_cluster req, us_service req) in
  match services w !! key with
  | None => mkRes (Raise ServiceNotFoundException) w [Called (EcsUpdateService req)]
  | Some old =>
      if String.eqb (status old) "ACTIVE"
      then mkRes (Ret tt)
                 (set_services (<[key := {| serviceArn := serviceArn old; status := status old;
                                            taskDefinition := us_taskDefinition req |}]>
                                  (services w)) w)
                 [Called (EcsUpdateService req)]
      else mkRes (Raise ServiceNotActiveException) w [Called (EcsUpdateService req)]
  end.

(** ** The script *)

(** [get_account_id()] *)
Definition get_account_id : M string := sts_get_caller_identity_account.

Definition ssm_parameter_arn (region account_id param_name : string) : string :=
  "arn:aws:ssm:" +:+ region +:+ ":" +:+ account_id +:+ ":parameter" +:+ param_name.

Definition missing_parameter_message (param_name : string) : string :=
  "❌ Error Crítico: El parámetro '" +:+ param_name
  +:+ "' definido en env.yml NO existe en AWS Parameter Store.".

(** [get_ssm_parameter_arn(param_name)].  The value comes from the YAML
    document: botocore refuses a [Name] that is not a string before it
    sends anything. *)
Definition get_ssm_parameter_arn (param_name : yaml) : M string :=
  match param_name with
  | YStr name =>
      try_except
        (ssm_get_parameter name >>
         let! region := session_region_name in
         let! account_id := get_account_id in
         ret (ssm_parameter_arn region account_id name))
        (fun e =>
           match e with
           | ParameterNotFound =>
               Some (print (missing_parameter_message name) >> sys_exit 1)
           | _ => None
           end)
  | _ => raise (ParamValidationError "Parameter validation failed: Invalid type for parameter Name")
  end.

(** [get_or_create_target_group(vpc_id, project_name, port)].  The [try]
    block leaves the function with the identifier it found ([Some]); after
    the handler the function goes on to the creation ([None]). *)
Definition get_or_create_target_group (vpc_id project_name : string) (port : Z) : M string :=
  let tg_name := project_name +:+ "-tg" in
  let! found := try_except
      (let! response := elbv2_describe_target_groups [tg_name] in
       print ("✅ Target Group existente encontrado: " +:+ tg_name) >>
       let! tg := first response in
       ret (Some (TargetGroupArn tg)))
      (fun e =>
         match e with
         | TargetGroupNotFoundException =>
             Some (print ("⚠️ Target Group '" +:+ tg_name +:+ "' no existe. Creando uno nuevo...") >>
                   ret None)
         | _ => None
         end) in
  match found with
  | Some arn => ret arn
  | None =>
      let! response := elbv2_create_target_group
          {| ctg_Name := tg_name;
             ctg_Protocol := "HTTP";
             ctg_Port := port;
             ctg_VpcId := vpc_id;
             ctg_TargetType := "ip";
             ctg_HealthCheckProtocol := "HTTP";
             ctg_HealthCheckPath := "/";
             ctg_MatcherHttpCode := "200-299" |} in
      let! tg := first response in
      ret (TargetGroupArn tg)
  end.

(** The loop of [register_task_definition] over [env_vars_map.items()],
    appending to [secrets_config]. *)
Fixpoint resolve_secrets (entries : list (string * yaml)) (secrets_config : list Secret)
  : M (list Secret) :=
  match entries with
  | [] => ret secrets_config
  | (env_var_name, ssm_path) :: entries' =>
      let! arn := get_ssm_parameter_arn ssm_path in
      resolve_secrets entries'
        (secrets_config ++ [{| sec_name := env_var_name; sec_valueFrom := arn |}])
  end.

Definition container_name (project_name : string) : string := project_name +:+ "-container".

(** [register_task_definition(image_uri, project_name, execution_role_arn, env_vars_map)] *)
Definition register_task_definition
  (image_uri project_name execution_role_arn : string) (env_vars_map : yaml) : M string :=
  print "🔄 Generando configuración de secretos..." >>
  let! entries := items env_vars_map in
  let! secrets_config := resolve_secrets entries [] in
  print ("📝 Registrando nueva Task Definition para: " +:+ project_name) >>
  let! region := session_region_name in
  ecs_register_task_definition
    {| rtd_family := project_name;
       rtd_networkMode := "awsvpc";
       rtd_requiresCompatibilities := ["FARGATE"];
       rtd_cpu := "256";
       rtd_memory := "512";
       rtd_executionRoleArn := execution_role_arn;
       rtd_taskRoleArn := execution_role_arn;
       rtd_containerDefinitions :=
         [ {| cd_name := container_name project_name;
              cd_image := image_uri;
              cd_essential := true;
              cd_portMappings := [ {| pm_containerPort := 8000; pm_protocol := "tcp" |} ];
              cd_secrets := secrets_config;
              cd_logConfiguration :=
                {| log_logDriver := "awslogs";
                   log_awslogs_group := "/ecs/" +:+ project_name;
                   log_awslogs_region := region;
                   log_awslogs_stream_prefix := "ecs" |} |} ] |}.

(** The container name that [deploy_service] writes into the load-balancer
    binding. *)
Definition binding_container_name (service_name : string) : string :=
  PyStr.replace "-service" "" service_name +:+ "-container".

Definition update_request (cluster_name service_name task_def_arn : string) : UpdateServiceReq :=
  {| us_cluster := cluster_name;
     us_service := service_name;
     us_taskDefinition := task_def_arn;
     us_forceNewDeployment := true |}.

Definition create_request (cluster_name service_name task_def_arn tg_arn : string)
  (subnets security_groups : list string) : CreateServiceReq :=
  {| cs_cluster := cluster_name;
     cs_serviceName := service_name;
     cs_taskDefinition := task_def_arn;
     cs_launchType := "FARGATE";
     cs_desiredCount := 1;
     cs_subnets := subnets;
     cs_securityGroups := security_groups;
     cs_assignPublicIp := "ENABLED";
     cs_loadBalancers :=
       [ {| lb_targetGroupArn := tg_arn;
            lb_containerName := binding_container_name service_name;
            lb_containerPort := 8000 |} ] |}.

(** [deploy_service(cluster_name, service_name, task_def_arn, tg_arn, subnets, security_groups)] *)
Definition deploy_service (cluster_name service_name task_def_arn tg_arn : string)
  (subnets security_groups : list string) : M unit :=
  print ("🚀 Iniciando despliegue del servicio: " +:+ service_name) >>
  let! service_exists := try_except
      (let! described := ecs_describe_services cluster_name [service_name] in
       let! sv := first described in
       let _ := serviceArn sv in
       ret true)
      (fun e =>
         match e with
         | IndexError _ | KeyError _ => Some (ret false)
         | _ => None
         end) in
  let! response := ecs_describe_services cluster_name [service_name] in
  let! service_exists :=
    match response with
    | [] => ret false
    | sv :: _ => if String.eqb (status sv) "INACTIVE" then ret false else ret service_exists
    end in
  (if service_exists : bool
   then
     print "🔄 El servicio existe. Ejecutando Update (Rolling Deployment)..." >>
     ecs_update_service (update_request cluster_name service_name task_def_arn)
   else
     print "✨ El servicio NO existe. Creando servicio nuevo..." >>
     ecs_create_service
       (create_request cluster_name service_name task_def_arn tg_arn subnets security_groups)) >>
  print "✅ Orden de despliegue enviada a ECS exitosamente.".

(** The command line, after [argparse]: all seven options are required. *)
Record Args : Type := {
  image : string;
  env_yml : string;
  vpc_id : string;
  cluster : string;
  project : string;
  subnets : string;
  security_groups : string
}.

Definition start_banner (a : Args) : string :=
  "--- 🏁 Iniciando Script de Despliegue: " +:+ project a +:+ " ---".

Definition config_error_message (a : Args) (e : exn) : string :=
  "❌ Error leyendo " +:+ env_yml a +:+ ": " +:+ exn_str e.

Definition end_banner : string :=
  "--- 🏁 Despliegue finalizado. Monitorea el cluster en la consola AWS ---".

(** Step 1 of the main block, the body of its [try]. *)
Definition load_env_map (a : Args) : M yaml :=
  let! f := py_open (env_yml a) in
  let! doc := yaml_safe_load f in
  subscript doc "variables".

Definition execution_role_arn (account_id : string) : string :=
  "arn:aws:iam::" +:+ account_id +:+ ":role/ecsTaskExecutionRole".

(** The [__main__] block. *)
Definition main (a : Args) : M unit :=
  print (start_banner a) >>
  let! env_map := try_except (load_env_map a)
      (fun e => Some (print (config_error_message a e) >> sys_exit 1)) in
  let! tg_arn := get_or_create_target_group (vpc_id a) (project a) 8000 in
  let! account_id := get_account_id in
  let exec_role_arn := execution_role_arn account_id in
  let! td_arn := register_task_definition (image a) (project a) exec_role_arn env_map in
  deploy_service (cluster a) (project a +:+ "-service") td_arn tg_arn
    (PyStr.split "," (subnets a)) (PyStr.split "," (security_groups a)) >>
  print end_banner.

(** ** Vocabulary of the statements *)

(** What the two [describe_services] queries of [deploy_service] conclude. *)
Definition service_found (w : World) (c n : string) : bool :=
  match services w !! (c, n) with
  | Some sv => negb (String.eqb (status sv) "INACTIVE")
  | None => false
  end.

(** The secret resolver sends nothing but the existence check on [name]. *)
Definition only_existence_check (name : string) (w : World) : Prop :=
  calls_of (events (get_ssm_parameter_arn (YStr name) w)) = [SsmGetParameter name].

(** A run issued one service creation or one service update, not both. *)
Definition one_service_mutation {A} (r : Res A) : Prop :=
  (count_events is_create_service (events r) = 1 ∧ count_events is_update_service (events r) = 0)
  ∨ (count_events is_create_service (events r) = 0 ∧ count_events is_update_service (events r) = 1).

(** The same result in an account whose parameters hold other values. *)
Definition with_ssm_parameters {A} (ps : gmap string string) (r : Res A) : Res A :=
  mkRes (out r) (set_ssm_parameters ps (world r)) (events r).

(** A mapping of variable names to secret-store paths, as a YAML value. *)
Definition paths_to_yaml (paths : list (string * string)) : list (string * yaml) :=
  map (fun kp => (fst kp, YStr (snd kp))) paths.







Definition top_level (key : string) (doc : yaml) : option yaml :=
  match doc with
  | YMap kvs => dict_get key kvs
  | _ => None
  end.


(** The lookup of the service by [deploy_service] is answered. *)
Definition service_lookup_answers (w : World) (c n : string) : Prop :=
  ∃ response, out (ecs_describe_services c [n] w) = Ret response.

(** Step 2 of the main block returns. *)
Definition target_group_step_returns (a : Args) (w : World) : Prop :=
  ∃ arn, out (get_or_create_target_group (vpc_id a) (project a) 8000 w) = Ret arn.

(** A name that the parameter store can hold as it is written: not empty,
    at most 2048 characters, letters, digits and [_.-/]. *)
Definition well_formed_parameter_name (name : string) : bool :=
  negb (String.eqb name "")
  && Nat.leb (String.length name) 2048
  && all_chars (fun c => is_alnum c || Ascii.eqb c "_" || Ascii.eqb c "."
                         || Ascii.eqb c "-" || Ascii.eqb c "/") name.

(** A run ended in the diagnosed exit for a missing secret: status 1 and
    the line that names a path. *)
Definition missing_secret_diagnosed {A} (r : Res A) : Prop :=
  out r = Exit 1
  ∧ ∃ p, In (Printed ("❌ Error Crítico: El parámetro '" +:+ p
                      +:+ "' definido en env.yml NO existe en AWS Parameter Store."))
            (events r).


(** ** A sample account and command line *)

Definition demo_world : World :=
  {| region_name := "us-east-1";
     account := "123456789012";
     ssm_parameters := {[ "/prod/db_pass" := "hunter2" ]};
     target_groups := ∅;
     task_definitions := [];
     services := ∅;
     clusters := {[ "main" ]};
     vpcs := {[ "vpc-0a1b2c" ]};
     subnet_ids := {[ "subnet-1"; "subnet-2" ]};
     security_group_ids := {[ "sg-1" ]};
     files := {[ "env.yml" :=
                   Document (YMap [("variables", YMap [("DB_PASS", YStr "/prod/db_pass")])]) ]} |}.

Definition demo_args : Args :=
  {| image := "123456789012.dkr.ecr.us-east-1.amazonaws.com/shop:42";
     env_yml := "env.yml";
     vpc_id := "vpc-0a1b2c";
     cluster := "main";
     project := "shop";
     subnets := "subnet-1, subnet-2,";
     security_groups := "" |}.

(** The request with which [get_or_create_target_group] creates a group. *)
Definition target_group_request (vpc project : string) (port : Z) : CreateTargetGroupReq :=
  {| ctg_Name := project +:+ "-tg";
     ctg_Protocol := "HTTP";
     ctg_Port := port;
     ctg_VpcId := vpc;
     ctg_TargetType := "ip";
     ctg_HealthCheckProtocol := "HTTP";
     ctg_HealthCheckPath := "/";
     ctg_MatcherHttpCode := "200-299" |}.

(** The creation of the group of a project is accepted by botocore and by
    the load-balancing service. *)
Definition target_group_creation_accepted (w : World) (vpc project : string) (port : Z) : bool :=
  Z.leb 1 port && target_group_request_accepted w (target_group_request vpc project port).

(** The calls of a log that change the orchestrator: registrations of task
    definitions, creations and updates of services. *)
Definition is_ecs_mutation (c : Call) : bool :=
  match c with
  | EcsRegisterTaskDefinition _ | EcsCreateService _ | EcsUpdateService _ => true
  | _ => false
  end.

Fixpoint ecs_mutations (l : list Event) : list Call :=
  match l with
  | [] => []
  | Called c :: l' => if is_ecs_mutation c then c :: ecs_mutations l' else ecs_mutations l'
  | Printed _ :: l' => ecs_mutations l'
  end.

(** The mutation that [deploy_service] issues from the state [w]. *)
Definition service_mutation (w : World) (c n td tg : string) (sn sg : list string) : Call :=
  if service_found w c n
  then EcsUpdateService (update_request c n td)
  else EcsCreateService (create_request c n td tg sn sg).

(** How often the character [c] occurs in [s]. *)
Fixpoint occurrences (c : ascii) (s : string) : nat :=
  match s with
  | EmptyString => 0
  | String c' s' => (if Ascii.eqb c' c then 1 else 0) + occurrences c s'
  end.

(** The same command line, pointing at a configuration file that is not
    there. *)
Definition demo_args_no_config : Args :=
  {| image := image demo_args;
     env_yml := "missing.yml";
     vpc_id := vpc_id demo_args;
     cluster := cluster demo_args;
     project := project demo_args;
     subnets := subnets demo_args;
     security_groups := security_groups demo_args |}.

(** The creation that the first run of the sample issues. *)
Definition demo_create_request : CreateServiceReq :=
  create_request "main" "shop-service"
    "arn:aws:ecs:us-east-1:123456789012:task-definition/shop:1"
    "arn:aws:elasticloadbalancing:us-east-1:123456789012:targetgroup/shop-tg/0"
    ["subnet-1"; " subnet-2"; ""] [""].

(** A configuration whose second path is not in the parameter store. *)
Definition demo_paths : list (string * string) :=
  [("DB_PASS", "/prod/db_pass"); ("API_KEY", "/prod/api_key")].

Definition demo_document : yaml :=
  YMap [("variables", YMap (paths_to_yaml demo_paths))].

Definition demo_world_missing_secret : World :=
  {| region_name := region_name demo_world;
     account := account demo_world;
     ssm_parameters := ssm_parameters demo_world;
     target_groups := target_groups demo_world;
     task_definitions := task_definitions demo_world;
     services := services demo_world;
     clusters := clusters demo_world;
     vpcs := vpcs demo_world;
     subnet_ids := subnet_ids demo_world;
     security_group_ids := security_group_ids demo_world;
     files := {[ "env.yml" := Document demo_document ]} |}.

(** A computation that does not depend on the values held by the parameter
    store, and does not write to it: in an account whose store has the same
    paths, it gives the same outcome and the same log. *)
Definition ssm_blind {A} (m : M A) : Prop :=
  ∀ (w : World) (ps : gmap string string),
    dom ps = dom (ssm_parameters w) →
    m (set_ssm_parameters ps w) = with_ssm_parameters ps (m w)
    ∧ ssm_parameters (world (m w)) = ssm_parameters w.

(** The sample store after the secret has been rotated: the same path,
    another value. *)
Definition demo_rotated_parameters : gmap string string :=
  {[ "/prod/db_pass" := "correct horse battery staple" ]}.

(** A configuration file that says [variables:] and nothing else. *)
Definition demo_world_null_variables : World :=
  {| region_name := region_name demo_world;
     account := account demo_world;
     ssm_parameters := ssm_parameters demo_world;
     target_groups := target_groups demo_world;
     task_definitions := task_definitions demo_world;
     services := services demo_world;
     clusters := clusters demo_world;
     vpcs := vpcs demo_world;
     subnet_ids := subnet_ids demo_world;
     security_group_ids := security_group_ids demo_world;
     files := {[ "env.yml" := Document (YMap [("variables", YNull)]) ]} |}.

(** A project whose name contains "-service". *)
Definition demo_args_service_in_name : Args :=
  {| image := image demo_args;
     env_yml := env_yml demo_args;
     vpc_id := vpc_id demo_args;
     cluster := cluster demo_args;
     project := "my-service-api";
     subnets := subnets demo_args;
     security_groups := security_groups demo_args |}.

(** A project whose name makes the name of its target group longer than
    the load-balancing service accepts. *)
Definition demo_args_long_project : Args :=
  {| image := image demo_args;
     env_yml := env_yml demo_args;
     vpc_id := vpc_id demo_args;
     cluster := cluster demo_args;
     project := "shop-backoffice-reporting-frontend";
     subnets := subnets demo_args;
     security_groups := security_groups demo_args |}.

(** ** Vocabulary of the further properties *)

(** The entries of [secrets_config] for a mapping of names to paths. *)
Definition secrets_of (region account_id : string) (paths : list (string * string))
  : list Secret :=
  map (fun kp => {| sec_name := fst kp;
                    sec_valueFrom := ssm_parameter_arn region account_id (snd kp) |}) paths.

(** What resolving the paths of a mapping sends, in the order of the
    mapping: an existence check and an identity call for each entry. *)
Definition secret_checks (paths : list (string * string)) : list Event :=
  flat_map (fun kp => [Called (SsmGetParameter (snd kp)); Called StsGetCallerIdentity]) paths.

(** Every path of the mapping is in the parameter store. *)
Definition all_present (w : World) (paths : list (string * string)) : Prop :=
  Forall (fun kp => is_Some (ssm_parameters w !! snd kp)) paths.

(** The request that [register_task_definition] sends. *)
Definition task_definition_request (image_uri project_name execution_role_arn region : string)
  (secrets_config : list Secret) : RegisterTaskDefinitionReq :=
  {| rtd_family := project_name;
     rtd_networkMode := "awsvpc";
     rtd_requiresCompatibilities := ["FARGATE"];
     rtd_cpu := "256";
     rtd_memory := "512";
     rtd_executionRoleArn := execution_role_arn;
     rtd_taskRoleArn := execution_role_arn;
     rtd_containerDefinitions :=
       [ {| cd_name := container_name project_name;
            cd_image := image_uri;
            cd_essential := true;
            cd_portMappings := [ {| pm_containerPort := 8000; pm_protocol := "tcp" |} ];
            cd_secrets := secrets_config;
            cd_logConfiguration :=
              {| log_logDriver := "awslogs";
                 log_awslogs_group := "/ecs/" +:+ project_name;
                 log_awslogs_region := region;
                 log_awslogs_stream_prefix := "ecs" |} |} ] |}.

(** The identifier of the newest revision of a family. *)
Definition latest_revision_arn (w : World) (family : string) : string :=
  task_definition_arn w family (revisions family (task_definitions w)).

(** The sample account with the service of the project being drained. *)
Definition demo_world_draining : World :=
  {| region_name := region_name demo_world;
     account := account demo_world;
     ssm_parameters := ssm_parameters demo_world;
     target_groups := target_groups demo_world;
     task_definitions := task_definitions demo_world;
     services :=
       {[ ("main", "shop-service") :=
            {| serviceArn := "arn:aws:ecs:us-east-1:123456789012:service/main/shop-service";
               status := "DRAINING";
               taskDefinition := "arn:aws:ecs:us-east-1:123456789012:task-definition/shop:1" |} ]};
     clusters := clusters demo_world;
     vpcs := vpcs demo_world;
     subnet_ids := subnet_ids demo_world;
     security_group_ids := security_group_ids demo_world;
     files := files demo_world |}.

(** The mapping of the sample configuration file. *)
Definition demo_present_paths : list (string * string) := [("DB_PASS", "/prod/db_pass")].


(** The sample account with a configuration whose one path is empty. *)
Definition demo_world_empty_path : World :=
  {| region_name := region_name demo_world;
     account := account demo_world;
     ssm_parameters := ssm_parameters demo_world;
     target_groups := target_groups demo_world;
     task_definitions := task_definitions demo_world;
     services := services demo_world;
     clusters := clusters demo_world;
     vpcs := vpcs demo_world;
     subnet_ids := subnet_ids demo_world;
     security_group_ids := security_group_ids demo_world;
     files := {[ "env.yml" :=
                   Document (YMap [("variables", YMap (paths_to_yaml [("DB_PASS", "")]))]) ]} |}.

(** The sample command line with the networks of the sample account. *)
Definition demo_args_known_networks : Args :=
  {| image := image demo_args;
     env_yml := env_yml demo_args;
     vpc_id := vpc_id demo_args;
     cluster := cluster demo_args;
     project := project demo_args;
     subnets := "subnet-1,subnet-2";
     security_groups := "sg-1" |}.

(** * Properties *)

(** ** Logs *)

Lemma count_events_app f (l1 l2 : list Event) :
  count_events f (l1 ++ l2) = count_events f l1 + count_events f l2.
Proof. induction l1 as [|e l1 IH]; simpl; [done|]. rewrite IH. lia. Qed.

(** A mutation of a service is logged whatever the orchestrator answers. *)
Lemma events_ecs_create_service req w :
  events (ecs_create_service req w) = [Called (EcsCreateService req)].
Proof. unfold ecs_create_service. by repeat case_match. Qed.

Lemma events_ecs_update_service req w :
  events (ecs_update_service req w) = [Called (EcsUpdateService req)].
Proof. unfold ecs_update_service. by repeat case_match. Qed.

Lemma count_events_no_calls f (l : list Event) :
  (∀ s, f (Printed s) = false) → Forall (λ e, is_call e = false) l → count_events f l = 0.
Proof.
  intros Hf. induction 1 as [|e l He _ IH]; simpl; [done|].
  destruct e as [c|s]; [done|]. by rewrite Hf, IH.
Qed.

(** ** The service reconciler *)

Lemma ecs_describe_services_one (w : World) (c n : string) :
  ecs_describe_services c [n] w
  = match services w !! (c, n) with
    | Some sv => mkRes (Ret [sv]) w [Called (EcsDescribeServices c [n])]
    | None =>
        if bool_decide (c ∈ clusters w)
        then mkRes (Ret []) w [Called (EcsDescribeServices c [n])]
        else mkRes (Raise ClusterNotFoundException) w [Called (EcsDescribeServices c [n])]
    end.
Proof. unfold ecs_describe_services. simpl. by destruct (services w !! (c, n)). Qed.

(** The lookup is answered when the service is known or the cluster is. *)
Lemma service_lookup_answers_iff (w : World) (c n : string) :
  service_lookup_answers w c n ↔ is_Some (services w !! (c, n)) ∨ c ∈ clusters w.
Proof.
  unfold service_lookup_answers. rewrite ecs_describe_services_one.
  destruct (services w !! (c, n)) as [sv|]; simpl.
  - split; eauto.
  - destruct (bool_decide (c ∈ clusters w)) eqn:Hc; simpl.
    + apply bool_decide_eq_true in Hc. split; eauto.
    + apply bool_decide_eq_false in Hc. split; [by intros [? [=]]|].
      by intros [[? [=]]|?].
Qed.

Lemma service_lookup_answers_or_not (w : World) (c n : string) :
  service_lookup_answers w c n ∨ ¬ service_lookup_answers w c n.
Proof.
  rewrite service_lookup_answers_iff.
  destruct (services w !! (c, n)) as [sv|]; [left; eauto|].
  destruct (decide (c ∈ clusters w)); [by left; right|].
  right. by intros [[? [=]]|?].
Qed.

Lemma deploy_service_events (w : World) (c n td tg : string) (sn sg : list string) :
  service_lookup_answers w c n →
  ∃ tail,
    events (deploy_service c n td tg sn sg w) =
    [ Printed ("🚀 Iniciando despliegue del servicio: " +:+ n);
      Called (EcsDescribeServices c [n]);
      Called (EcsDescribeServices c [n]);
      Printed (if service_found w c n
               then "🔄 El servicio existe. Ejecutando Update (Rolling Deployment)..."
               else "✨ El servicio NO existe. Creando servicio nuevo...");
      Called (if service_found w c n
              then EcsUpdateService (update_request c n td)
              else EcsCreateService (create_request c n td tg sn sg)) ] ++ tail
    ∧ Forall (λ e, is_call e = false) tail
    ∧ ∀ code, out (deploy_service c n td tg sn sg w) ≠ Exit code.
Proof.
  intros Hans. apply service_lookup_answers_iff in Hans.
  unfold service_found, deploy_service, bind, try_except, print, ret, raise, first,
    ecs_create_service, ecs_update_service.
  rewrite !ecs_describe_services_one.
  destruct (services w !! (c, n)) as [sv|] eqn:Hsv.
  - destruct (String.eqb (status sv) "INACTIVE") eqn:Hst.
    + repeat (simpl; rewrite ?ecs_describe_services_one, ?Hsv, ?Hst).
      destruct (networks_known _ _); simpl;
        (eexists; split; [reflexivity|]); (split; [repeat constructor|done]).
    + repeat (simpl; rewrite ?ecs_describe_services_one, ?Hsv, ?Hst).
      destruct (String.eqb (status sv) "ACTIVE") eqn:Hact; simpl;
        (eexists; split; [reflexivity|]); (split; [repeat constructor|done]).
  - destruct Hans as [[? [=]]|Hc].
    assert (Hb : bool_decide (c ∈ clusters w) = true) by (by apply bool_decide_eq_true).
    repeat (simpl; rewrite ?ecs_describe_services_one, ?Hsv, ?Hb).
    destruct (networks_known _ _); simpl;
      (eexists; split; [reflexivity|]); (split; [repeat constructor|done]).
Qed.

(** When the lookup is not answered the exception of the first lookup is
    not one that the reconciler handles: it leaves with it. *)
Lemma deploy_service_unanswered (w : World) (c n td tg : string) (sn sg : list string) :
  ¬ service_lookup_answers w c n →
  deploy_service c n td tg sn sg w
  = mkRes (Raise ClusterNotFoundException) w
      [ Printed ("🚀 Iniciando despliegue del servicio: " +:+ n);
        Called (EcsDescribeServices c [n]) ].
Proof.
  intros Hans. rewrite service_lookup_answers_iff in Hans.
  unfold deploy_service, bind, try_except, print.
  rewrite !ecs_describe_services_one.
  destruct (services w !! (c, n)) as [sv|] eqn:Hsv; [destruct Hans; eauto|].
  destruct (bool_decide (c ∈ clusters w)) eqn:Hc.
  - apply bool_decide_eq_true in Hc. destruct Hans; eauto.
  - reflexivity.
Qed.

(** C1, as the code has it. When the lookup of the service is answered,
    [deploy_service] issues exactly one mutation of the orchestrator: with no
    service of that name found, or the one found INACTIVE, one create-service
    call and no update; with an ACTIVE service found, one update-service
    call, with [forceNewDeployment], and no create.  When the lookup is not
    answered, the cluster being unknown, the exception is not caught and no
    mutation is issued. *)
Theorem deploy_service_one_mutation (w : World) (c n td tg : string) (sn sg : list string) :
  let r := deploy_service c n td tg sn sg w in
  let creates := count_events is_create_service (events r) in
  let updates := count_events is_update_service (events r) in
  (service_lookup_answers w c n →
     creates + updates = 1 ∧
     ((services w !! (c, n) = None
       ∨ ∃ sv, services w !! (c, n) = Some sv ∧ status sv = "INACTIVE") →
        creates = 1 ∧ updates = 0) ∧
     ((∃ sv, services w !! (c, n) = Some sv ∧ status sv = "ACTIVE") →
        updates = 1 ∧ creates = 0 ∧
        ∀ req, In (Called (EcsUpdateService req)) (events r) →
               us_forceNewDeployment req = true ∧ us_taskDefinition req = td))
  ∧ (¬ service_lookup_answers w c n →
       out r = Raise ClusterNotFoundException ∧ creates = 0 ∧ updates = 0).
Proof.
  intros r creates updates. subst creates updates r. split.
  - intros Hans.
    destruct (deploy_service_events w c n td tg sn sg Hans) as (tail & -> & Htail & _).
    rewrite !count_events_app.
    rewrite (count_events_no_calls is_create_service tail),
      (count_events_no_calls is_update_service tail) by done.
    assert (Hin : ∀ e, In e tail → is_call e = false).
    { intros e He. rewrite Forall_forall in Htail. apply Htail. by apply list_elem_of_In. }
    unfold service_found.
    destruct (services w !! (c, n)) as [sv|] eqn:Hsv.
    + destruct (String.eqb (status sv) "INACTIVE") eqn:Hst; simpl.
      * split; [done|]. split; [done|]. intros (sv' & [= <-] & Hact).
        apply String.eqb_eq in Hst. congruence.
      * split; [done|]. split.
        -- intros [[=]|(sv' & [= <-] & Hina)]. apply String.eqb_neq in Hst. done.
        -- intros _. split; [done|]. split; [done|].
           intros req [[=]|[[=]|[[=]|[[=]|[[= <-]|Hreq]]]]]; [done|].
           apply Hin in Hreq. done.
    + simpl. split; [done|]. split; [done|]. by intros (sv' & [=] & _).
  - intros Hans. by rewrite (deploy_service_unanswered w c n td tg sn sg Hans).
Qed.

(** C1 as the spec states it fails: for a cluster that the account does not
    have, the lookup raises and neither a creation nor an update is issued. *)
Lemma deploy_service_unknown_cluster :
  out (deploy_service "staging" "shop-service" "td" "tg" ["subnet-1"] ["sg-1"] demo_world)
  = Raise ClusterNotFoundException
  ∧ ¬ one_service_mutation
        (deploy_service "staging" "shop-service" "td" "tg" ["subnet-1"] ["sg-1"] demo_world).
Proof.
  assert (Hrun : deploy_service "staging" "shop-service" "td" "tg" ["subnet-1"] ["sg-1"]
                   demo_world
                 = mkRes (Raise ClusterNotFoundException) demo_world
                     [ Printed "🚀 Iniciando despliegue del servicio: shop-service";
                       Called (EcsDescribeServices "staging" ["shop-service"]) ])
    by (vm_compute; reflexivity).
  rewrite Hrun. split; [done|].
  unfold one_service_mutation. simpl. intros [[? _]|[_ ?]]; discriminate.
Qed.

(** The sample account, whose cluster has no service yet. *)
Example deploy_service_first_deployment :
  service_lookup_answers demo_world "main" "shop-service"
  ∧ calls_of (events (deploy_service "main" "shop-service" "td" "tg" ["subnet-1"] ["sg-1"]
                        demo_world))
    = [ EcsDescribeServices "main" ["shop-service"];
        EcsDescribeServices "main" ["shop-service"];
        EcsCreateService (create_request "main" "shop-service" "td" "tg" ["subnet-1"] ["sg-1"]) ].
Proof. split; [eexists|]; vm_compute; reflexivity. Qed.

(** ** The secret resolver *)

Lemma get_ssm_parameter_arn_found (w : World) (name value : string) :
  ssm_parameters w !! name = Some value →
  get_ssm_parameter_arn (YStr name) w =
  mkRes (Ret (ssm_parameter_arn (region_name w) (account w) name)) w
        [Called (SsmGetParameter name); Called StsGetCallerIdentity].
Proof.
  intros Hv.
  unfold get_ssm_parameter_arn, try_except, bind, ssm_get_parameter. rewrite Hv. reflexivity.
Qed.

Lemma get_ssm_parameter_arn_missing (w : World) (name : string) :
  ssm_parameters w !! name = None → name ≠ "" →
  get_ssm_parameter_arn (YStr name) w =
  mkRes (Exit 1) w
    [ Called (SsmGetParameter name);
      Printed ("❌ Error Crítico: El parámetro '" +:+ name
               +:+ "' definido en env.yml NO existe en AWS Parameter Store.") ].
Proof.
  intros Hv Hname. apply String.eqb_neq in Hname.
  unfold get_ssm_parameter_arn, try_except, bind, ssm_get_parameter.
  rewrite Hv, Hname. reflexivity.
Qed.

(** The empty name never reaches the parameter store. *)
Lemma get_ssm_parameter_arn_empty (w : World) :
  ssm_parameters w !! "" = None →
  ∃ msg, get_ssm_parameter_arn (YStr "") w = mkRes (Raise (ParamValidationError msg)) w [].
Proof.
  intros Hv. unfold get_ssm_parameter_arn, try_except, bind, ssm_get_parameter.
  rewrite Hv. simpl. eauto.
Qed.

Lemma well_formed_parameter_name_nonempty (name : string) :
  well_formed_parameter_name name = true → name ≠ "".
Proof. by intros H ->. Qed.

(** C3, as the code has it. For a path that exists in the store the resolver
    returns "arn:aws:ssm:<region>:<account id>:parameter<path>", a function
    of region, account id and path alone, and leaves the account as it was;
    it sends two requests: the existence check on that path, then the
    identity call that fetches the account id. *)
Theorem secret_identifier_two_calls (w : World) (name value : string) :
  ssm_parameters w !! name = Some value →
  out (get_ssm_parameter_arn (YStr name) w)
    = Ret (ssm_parameter_arn (region_name w) (account w) name)
  ∧ world (get_ssm_parameter_arn (YStr name) w) = w
  ∧ calls_of (events (get_ssm_parameter_arn (YStr name) w))
    = [SsmGetParameter name; StsGetCallerIdentity].
Proof. intros Hv. by rewrite (get_ssm_parameter_arn_found w name value Hv). Qed.

(** The sample account resolves its one path. *)
Lemma secret_identifier_two_calls_witness :
  out (get_ssm_parameter_arn (YStr "/prod/db_pass") demo_world)
    = Ret "arn:aws:ssm:us-east-1:123456789012:parameter/prod/db_pass"
  ∧ world (get_ssm_parameter_arn (YStr "/prod/db_pass") demo_world) = demo_world
  ∧ calls_of (events (get_ssm_parameter_arn (YStr "/prod/db_pass") demo_world))
    = [SsmGetParameter "/prod/db_pass"; StsGetCallerIdentity].
Proof.
  apply (secret_identifier_two_calls demo_world "/prod/db_pass" "hunter2").
  vm_compute. reflexivity.
Defined.

(** C3 as the spec states it fails: resolving a path that exists sends an
    identity call besides the existence check. *)
Lemma secret_identifier_extra_call :
  ssm_parameters demo_world !! "/prod/db_pass" = Some "hunter2"
  ∧ ¬ only_existence_check "/prod/db_pass" demo_world.
Proof.
  split; [vm_compute; reflexivity|].
  unfold only_existence_check.
  rewrite (get_ssm_parameter_arn_found demo_world "/prod/db_pass" "hunter2")
    by (vm_compute; reflexivity).
  simpl. discriminate.
Qed.

(** ** The target-group resolver *)

Lemma get_or_create_target_group_found (w : World) (vpc project : string) (port : Z) tg :
  target_groups w !! (project +:+ "-tg") = Some tg →
  get_or_create_target_group vpc project port w =
  mkRes (Ret (TargetGroupArn tg)) w
        [ Called (Elbv2DescribeTargetGroups [project +:+ "-tg"]);
          Printed ("✅ Target Group existente encontrado: " +:+ (project +:+ "-tg")) ].
Proof.
  intros Htg.
  unfold get_or_create_target_group, bind, try_except, elbv2_describe_target_groups,
    first, ret, print.
  simpl. rewrite Htg. reflexivity.
Qed.

Lemma get_or_create_target_group_absent (w : World) (vpc project : string) (port : Z) :
  target_groups w !! (project +:+ "-tg") = None →
  target_group_creation_accepted w vpc project port = true →
  get_or_create_target_group vpc project port w =
  mkRes (Ret (new_target_group_arn w (project +:+ "-tg")))
        (set_target_groups
           (<[project +:+ "-tg" :=
                {| TargetGroupArn := new_target_group_arn w (project +:+ "-tg");
                   tg_config := target_group_request vpc project port |}]> (target_groups w)) w)
        [ Called (Elbv2DescribeTargetGroups [project +:+ "-tg"]);
          Printed ("⚠️ Target Group '" +:+ (project +:+ "-tg") +:+ "' no existe. Creando uno nuevo...");
          Called (Elbv2CreateTargetGroup (target_group_request vpc project port)) ].
Proof.
  intros Htg Hacc. apply andb_true_iff in Hacc as [Hport Hacc].
  assert (Hlt : Z.ltb port 1 = false) by (apply Z.ltb_ge; by apply Z.leb_le).
  unfold target_group_request in Hacc.
  unfold get_or_create_target_group, bind, try_except, elbv2_describe_target_groups,
    elbv2_create_target_group, first, ret, print.
  simpl. rewrite Htg. simpl. rewrite Hlt, Hacc. simpl. rewrite Htg. reflexivity.
Qed.

(** A creation that is refused leaves the account as it is; the exception
    is not one that the resolver handles. *)
Lemma get_or_create_target_group_refused (w : World) (vpc project : string) (port : Z) :
  target_groups w !! (project +:+ "-tg") = None →
  target_group_creation_accepted w vpc project port = false →
  ∃ e ev,
    get_or_create_target_group vpc project port w
    = mkRes (Raise e) w (Called (Elbv2DescribeTargetGroups [project +:+ "-tg"]) :: ev)
    ∧ ∀ c, In (Called c) ev → c = Elbv2CreateTargetGroup (target_group_request vpc project port).
Proof.
  intros Htg Hacc. unfold target_group_creation_accepted, target_group_request in Hacc.
  unfold get_or_create_target_group, bind, try_except, elbv2_describe_target_groups,
    elbv2_create_target_group, first, ret, print.
  simpl. rewrite Htg. simpl.
  destruct (Z.ltb port 1) eqn:Hlt; simpl.
  - do 2 eexists. split; [reflexivity|]. intros c [[=]|[]].
  - assert (Hport : Z.leb 1 port = true) by (apply Z.leb_le; by apply Z.ltb_ge).
    rewrite Hport in Hacc. simpl in Hacc. rewrite Hacc. simpl.
    do 2 eexists. split; [reflexivity|]. intros c [[=]|[[= <-]|[]]]. reflexivity.
Qed.



(** The sample project: the first call creates the group, the second one
    finds it. *)
Example target_group_resolver_sample :
  let r1 := get_or_create_target_group "vpc-0a1b2c" "shop" 8000 demo_world in
  let r2 := get_or_create_target_group "vpc-0a1b2c" "shop" 8000 (world r1) in
  out r1 = Ret "arn:aws:elasticloadbalancing:us-east-1:123456789012:targetgroup/shop-tg/0"
  ∧ out r2 = out r1
  ∧ calls_of (events r1 ++ events r2)
    = [ Elbv2DescribeTargetGroups ["shop-tg"];
        Elbv2CreateTargetGroup (target_group_request "vpc-0a1b2c" "shop" 8000);
        Elbv2DescribeTargetGroups ["shop-tg"] ].
Proof. vm_compute. done. Qed.

(** ** The stages of the main block *)

Lemma ecs_mutations_app (l1 l2 : list Event) :
  ecs_mutations (l1 ++ l2) = ecs_mutations l1 ++ ecs_mutations l2.
Proof.
  induction l1 as [|[c|s] l1 IH]; simpl; [done| |done].
  destruct (is_ecs_mutation c); simpl; by rewrite IH.
Qed.

Lemma ecs_mutations_no_calls (l : list Event) :
  Forall (λ e, is_call e = false) l → ecs_mutations l = [].
Proof. induction 1 as [|[c|s] l He _ IH]; simpl; done. Qed.

Lemma count_events_mutations f (l : list Event) :
  (∀ e, f e = true → ∃ c, e = Called c ∧ is_ecs_mutation c = true) →
  count_events f l = count_events f (map Called (ecs_mutations l)).
Proof.
  intros Hf. induction l as [|e l IH]; simpl; [done|].
  destruct (f e) eqn:Hfe.
  - destruct (Hf e Hfe) as (c & -> & ->). simpl. by rewrite Hfe, IH.
  - destruct e as [c|s]; [|done]. destruct (is_ecs_mutation c); simpl; [|done]. by rewrite Hfe.
Qed.

Lemma count_register_mutations (l : list Event) :
  count_events is_register l = count_events is_register (map Called (ecs_mutations l)).
Proof. apply count_events_mutations. intros [[]|] [=]; eauto. Qed.

Lemma count_create_mutations (l : list Event) :
  count_events is_create_service l = count_events is_create_service (map Called (ecs_mutations l)).
Proof. apply count_events_mutations. intros [[]|] [=]; eauto. Qed.

Lemma count_update_mutations (l : list Event) :
  count_events is_update_service l = count_events is_update_service (map Called (ecs_mutations l)).
Proof. apply count_events_mutations. intros [[]|] [=]; eauto. Qed.

Lemma in_ecs_mutations (c : Call) (l : list Event) :
  is_ecs_mutation c = true → In (Called c) l → In c (ecs_mutations l).
Proof.
  intros Hc. induction l as [|[c'|s] l IH]; simpl; [done| |].
  - intros [[= ->]|Hin].
    + rewrite Hc. by left.
    + destruct (is_ecs_mutation c'); [right|]; auto.
  - intros [[=]|Hin]. auto.
Qed.
(** Step 1 reads the file system only: it returns or raises, prints nothing
    and calls nothing. *)
Lemma load_env_map_run (a : Args) (w : World) :
  ∃ o, load_env_map a w = mkRes o w [] ∧ ∀ code, o ≠ Exit code.
Proof.
  unfold load_env_map, bind, py_open.
  destruct (files w !! env_yml a) as [[msg|msg|doc]|]; simpl; eauto.
  destruct doc as [|b|z|s|l|kvs]; simpl; eauto.
  destruct (dict_get "variables" kvs); simpl; eauto.
Qed.

Lemma get_ssm_parameter_arn_other (w : World) (v : yaml) :
  (∀ name, v ≠ YStr name) →
  ∃ msg, get_ssm_parameter_arn v w = mkRes (Raise (ParamValidationError msg)) w [].
Proof. intros Hv. destruct v; simpl; eauto. by destruct (Hv s). Qed.

(** The secret resolver leaves the account as it is and mutates nothing. *)
Lemma get_ssm_parameter_arn_run (v : yaml) (w : World) :
  ∃ o ev, get_ssm_parameter_arn v w = mkRes o w ev ∧ ecs_mutations ev = [].
Proof.
  destruct v as [|b|z|name|l|kvs];
    try (match goal with
         | |- context [get_ssm_parameter_arn ?v w] =>
             destruct (get_ssm_parameter_arn_other w v ltac:(done)) as [msg ->]
         end; by eauto).
  destruct (ssm_parameters w !! name) as [value|] eqn:Hv.
  - rewrite (get_ssm_parameter_arn_found w name value Hv). eauto.
  - destruct (decide (name = "")) as [->|Hname].
    + destruct (get_ssm_parameter_arn_empty w Hv) as [msg ->]. eauto.
    + rewrite (get_ssm_parameter_arn_missing w name Hv Hname). eauto.
Qed.

Lemma resolve_secrets_run (entries : list (string * yaml)) (acc : list Secret) (w : World) :
  ∃ o ev, resolve_secrets entries acc w = mkRes o w ev ∧ ecs_mutations ev = [].
Proof.
  revert acc. induction entries as [|[k v] entries IH]; intros acc; simpl.
  - unfold ret. eauto.
  - unfold bind. destruct (get_ssm_parameter_arn_run v w) as (o & ev & -> & Hev).
    destruct o as [arn|e|code]; [|by eauto..].
    destruct (IH (acc ++ [{| sec_name := k; sec_valueFrom := arn |}])) as (o' & ev' & -> & Hev').
    exists o', (ev ++ ev'). split; [done|]. by rewrite ecs_mutations_app, Hev, Hev'.
Qed.

(** The registrar either registers one revision and returns, or stops
    before it has registered anything. *)
Lemma register_task_definition_run (img proj role : string) (env : yaml) (w : World) :
  ∃ o w' ev,
    register_task_definition img proj role env w = mkRes o w' ev
    ∧ services w' = services w
    ∧ clusters w' = clusters w
    ∧ ((∃ arn req, o = Ret arn ∧ ecs_mutations ev = [EcsRegisterTaskDefinition req])
       ∨ ((∀ arn, o ≠ Ret arn) ∧ ecs_mutations ev = [])).
Proof.
  unfold register_task_definition, bind, print. simpl.
  destruct env as [|b|z|s|l|entries]; simpl; try by (do 3 eexists; split; [done|]; eauto).
  destruct (resolve_secrets_run entries [] w) as (o & ev & -> & Hev).
  destruct o as [secrets|e|code]; simpl.
  - do 3 eexists. split; [done|]. split; [done|]. split; [done|]. left.
    do 2 eexists. split; [done|]. simpl. rewrite ecs_mutations_app, Hev. reflexivity.
  - do 3 eexists. split; [done|]. split; [done|]. split; [done|]. right. done.
  - do 3 eexists. split; [done|]. split; [done|]. split; [done|]. right. done.
Qed.

Lemma deploy_service_mutations (w : World) (c n td tg : string) (sn sg : list string) :
  service_lookup_answers w c n →
  ecs_mutations (events (deploy_service c n td tg sn sg w)) = [service_mutation w c n td tg sn sg].
Proof.
  intros Hans.
  destruct (deploy_service_events w c n td tg sn sg Hans) as (tail & -> & Htail & _).
  rewrite ecs_mutations_app, (ecs_mutations_no_calls tail Htail).
  unfold service_mutation. simpl. by destruct (service_found w c n).
Qed.

Lemma ecs_mutations_none (l : list Event) :
  (∀ c, In (Called c) l → is_ecs_mutation c = false) → ecs_mutations l = [].
Proof.
  induction l as [|[c|s] l IH]; intros Hl; simpl; [done| |].
  - rewrite (Hl c) by (by left). apply IH. intros c' Hc'. apply Hl. by right.
  - apply IH. intros c' Hc'. apply Hl. by right.
Qed.

(** The target-group resolver returns or raises; it begins with the lookup
    and touches neither the services nor the parameters. *)
Lemma get_or_create_target_group_run (vpc proj : string) (port : Z) (w : World) :
  ∃ o w' ev,
    get_or_create_target_group vpc proj port w = mkRes o w' ev
    ∧ (∀ code, o ≠ Exit code)
    ∧ services w' = services w
    ∧ clusters w' = clusters w
    ∧ ssm_parameters w' = ssm_parameters w
    ∧ ecs_mutations ev = []
    ∧ ∃ ev', ev = Called (Elbv2DescribeTargetGroups [proj +:+ "-tg"]) :: ev'.
Proof.
  destruct (target_groups w !! (proj +:+ "-tg")) as [tg|] eqn:Htg.
  - rewrite (get_or_create_target_group_found w vpc proj port tg Htg).
    do 3 eexists. split; [done|]. repeat split; eauto.
  - destruct (target_group_creation_accepted w vpc proj port) eqn:Hacc.
    + rewrite (get_or_create_target_group_absent w vpc proj port Htg Hacc).
      do 3 eexists. split; [done|]. repeat split; eauto.
    + destruct (get_or_create_target_group_refused w vpc proj port Htg Hacc)
        as (e & ev & -> & Hev).
      do 3 eexists. split; [done|]. repeat split; eauto.
      simpl. apply ecs_mutations_none. intros c Hc. by rewrite (Hev c Hc).
Qed.

(** ** The whole run *)

(** A run mutates the orchestrator not at all, and then does not complete;
    or it registers one revision and dies at the lookup of the service; or it
    registers one revision and issues the one mutation of [deploy_service]
    for the service of the project, and then does not leave through
    [sys.exit]. *)
Lemma main_mutations (a : Args) (w : World) :
  (ecs_mutations (events (main a w)) = [] ∧ ∀ u, out (main a w) ≠ Ret u)
  ∨ (∃ req, ecs_mutations (events (main a w)) = [EcsRegisterTaskDefinition req]
            ∧ out (main a w) = Raise ClusterNotFoundException)
  ∨ ∃ req w' td tg,
      ecs_mutations (events (main a w)) =
      [ EcsRegisterTaskDefinition req;
        service_mutation w' (cluster a) (project a +:+ "-service") td tg
          (PyStr.split "," (subnets a)) (PyStr.split "," (security_groups a)) ]
      ∧ ∀ code, out (main a w) ≠ Exit code.
Proof.
  unfold main, bind, try_except, print, sys_exit.
  destruct (load_env_map_run a w) as (o & -> & Hexit).
  destruct o as [env|e|code]; [|by left|by destruct (Hexit code)].
  destruct (get_or_create_target_group_run (vpc_id a) (project a) 8000 w)
    as (o1 & w1 & ev1 & -> & Hexit1 & Hsv1 & _ & _ & Hev1 & _).
  destruct o1 as [tg|e|code]; [|left; simpl; by rewrite Hev1|by destruct (Hexit1 code)].
  unfold get_account_id, sts_get_caller_identity_account.
  destruct (register_task_definition_run (image a) (project a)
              (execution_role_arn (account w1)) env w1)
    as (o2 & w2 & ev2 & -> & Hsv2 & _ & Hreg).
  destruct Hreg as [(td & req & -> & Hev2)|[Hnot Hev2]].
  - right.
    destruct (service_lookup_answers_or_not w2 (cluster a) (project a +:+ "-service")) as [Hans|Hans].
    + right. exists req, w2, td, tg.
      pose proof (deploy_service_mutations w2 (cluster a) (project a +:+ "-service") td tg
                    (PyStr.split "," (subnets a)) (PyStr.split "," (security_groups a)) Hans)
        as Hdep.
      destruct (deploy_service_events w2 (cluster a) (project a +:+ "-service") td tg
                  (PyStr.split "," (subnets a)) (PyStr.split "," (security_groups a)) Hans)
        as (_ & _ & _ & Hnoexit).
      destruct (deploy_service _ _ _ _ _ _ w2) as [o3 w3 ev3]. simpl in Hdep, Hnoexit.
      destruct o3 as [[]|e|code]; [| |by destruct (Hnoexit code)]; simpl;
        rewrite !ecs_mutations_app, Hev1; simpl;
        rewrite !ecs_mutations_app, Hev2, ?ecs_mutations_app, Hdep;
        simpl; by rewrite ?app_nil_r.
    + left. exists req.
      rewrite (deploy_service_unanswered w2 _ _ _ _ _ _ Hans). simpl.
      rewrite !ecs_mutations_app, Hev1. simpl. rewrite !ecs_mutations_app, Hev2. done.
  - left. destruct o2 as [td|e|code]; [by destruct (Hnot td)|..]; simpl;
      (split; [|done]); rewrite !ecs_mutations_app, Hev1; simpl; by rewrite Hev2.
Qed.

(** C5, as the code has it. Every run registers at most one task definition
    revision and issues at most one service mutation, a creation or an
    update, and this only after the registration.  A run that completes
    registers exactly one revision and issues exactly one of the two; a run
    that leaves through one of the exits of the script, after the diagnostic
    for the configuration file or for a missing secret, has registered
    nothing and mutated no service. *)
Theorem run_mutations_bounded (a : Args) (w : World) :
  let r := main a w in
  (count_events is_register (events r) ≤ 1)%nat
  ∧ (count_events is_create_service (events r) + count_events is_update_service (events r) ≤ 1)%nat
  ∧ (ecs_mutations (events r) = []
     ∨ (∃ req, ecs_mutations (events r) = [EcsRegisterTaskDefinition req])
     ∨ (∃ req cre, ecs_mutations (events r)
                   = [EcsRegisterTaskDefinition req; EcsCreateService cre])
     ∨ (∃ req upd, ecs_mutations (events r)
                   = [EcsRegisterTaskDefinition req; EcsUpdateService upd]))
  ∧ (∀ u, out r = Ret u → count_events is_register (events r) = 1 ∧ one_service_mutation r)
  ∧ (∀ code, out r = Exit code → ecs_mutations (events r) = []).
Proof.
  intros r. subst r. unfold one_service_mutation.
  rewrite count_register_mutations, count_create_mutations, count_update_mutations.
  destruct (main_mutations a w)
    as [[-> Hout]|[(req & -> & Hout)|(req & w' & td & tg & -> & Hexit)]].
  - simpl. split; [lia|]. split; [lia|]. split; [by left|]. split; [|done].
    intros u Hu. by destruct (Hout u).
  - simpl. split; [lia|]. split; [lia|]. split; [right; left; eauto|].
    rewrite Hout. done.
  - unfold service_mutation. destruct (service_found _ _ _); simpl;
      (split; [lia|]); (split; [lia|]); (split; [right; right; eauto|]);
      (split; [intros u _; split; [done|]; auto|]);
      intros code Hcode; by destruct (Hexit code).
Qed.

(** C5 as the spec states it fails: a run that stops at the configuration
    file creates no service and updates none. *)
Lemma run_without_service_mutation :
  out (main demo_args_no_config demo_world) = Exit 1
  ∧ ¬ one_service_mutation (main demo_args_no_config demo_world).
Proof.
  split; [vm_compute; reflexivity|].
  unfold one_service_mutation.
  assert (Hev : events (main demo_args_no_config demo_world) =
                [ Printed (start_banner demo_args_no_config);
                  Printed (config_error_message demo_args_no_config
                             (OSError "[Errno 2] No such file or directory: 'missing.yml'")) ])
    by (vm_compute; reflexivity).
  rewrite Hev. simpl. intros [[? _]|[_ ?]]; discriminate.
Qed.

(** ** [str.split] *)

Lemma split_nonempty (sep : ascii) (s : string) : PyStr.split sep s ≠ [].
Proof.
  destruct s as [|c s]; simpl; [done|].
  destruct (Ascii.eqb c sep); [done|]. by destruct (PyStr.split sep s).
Qed.

Lemma append_cons (c : ascii) (s1 s2 : string) : String c s1 +:+ s2 = String c (s1 +:+ s2).
Proof. reflexivity. Qed.

Lemma join_cons_char (sep : string) (c : ascii) (piece : string) (pieces : list string) :
  PyStr.join sep (String c piece :: pieces) = String c (PyStr.join sep (piece :: pieces)).
Proof. destruct pieces; simpl; [done|]. by rewrite append_cons. Qed.

(** Joining the pieces with the separator gives the string back: nothing is
    trimmed, dropped or reordered. *)
Lemma join_split (sep : ascii) (s : string) :
  PyStr.join (String sep EmptyString) (PyStr.split sep s) = s.
Proof.
  induction s as [|c s IH]; simpl; [done|].
  destruct (Ascii.eqb c sep) eqn:Hc.
  - apply Ascii.eqb_eq in Hc as ->.
    pose proof (split_nonempty sep s) as Hne.
    destruct (PyStr.split sep s) as [|piece pieces]; [done|].
    change (PyStr.join (String sep "") ("" :: piece :: pieces))
      with ("" +:+ String sep "" +:+ PyStr.join (String sep "") (piece :: pieces)).
    rewrite IH. reflexivity.
  - pose proof (split_nonempty sep s) as Hne.
    destruct (PyStr.split sep s) as [|piece pieces]; [done|].
    by rewrite join_cons_char, IH.
Qed.

(** One piece more than there are separators: empty pieces are kept. *)
Lemma length_split (sep : ascii) (s : string) :
  length (PyStr.split sep s) = S (occurrences sep s).
Proof.
  induction s as [|c s IH]; simpl; [done|].
  destruct (Ascii.eqb c sep); simpl; [by rewrite IH|].
  pose proof (split_nonempty sep s) as Hne.
  destruct (PyStr.split sep s) as [|piece pieces]; [done|]. simpl in *. lia.
Qed.

(** C9. The subnets and the security groups of a service creation issued by
    a run are the comma-splits of the two command-line strings: joined with
    commas they give the strings back, and there is one element more than
    there are commas, so that nothing is trimmed and no empty element is
    dropped. *)
Theorem create_service_lists_are_comma_splits (a : Args) (w : World) (req : CreateServiceReq) :
  In (Called (EcsCreateService req)) (events (main a w)) →
  (cs_subnets req = PyStr.split "," (subnets a)
   ∧ cs_securityGroups req = PyStr.split "," (security_groups a))
  ∧ (PyStr.join "," (cs_subnets req) = subnets a
     ∧ PyStr.join "," (cs_securityGroups req) = security_groups a)
  ∧ (length (cs_subnets req) = S (occurrences "," (subnets a))
     ∧ length (cs_securityGroups req) = S (occurrences "," (security_groups a))).
Proof.
  intros Hin. apply in_ecs_mutations in Hin; [|done].
  assert (cs_subnets req = PyStr.split "," (subnets a)
          ∧ cs_securityGroups req = PyStr.split "," (security_groups a)) as [Hsn Hsg].
  { destruct (main_mutations a w)
      as [[Hnone _]|[(r & Hmut & _)|(r & w' & td & tg & Hmut & _)]].
    - rewrite Hnone in Hin. destruct Hin.
    - rewrite Hmut in Hin. by destruct Hin as [[=]|[]].
    - rewrite Hmut in Hin. unfold service_mutation in Hin.
      destruct (service_found _ _ _); destruct Hin as [[=]|[[=]|[]]]. by subst req. }
  rewrite Hsn, Hsg. split; [done|]. split.
  - split; apply join_split.
  - split; apply length_split.
Qed.

(** The first run of the sample sends the creation of the service. *)
Lemma create_service_lists_are_comma_splits_witness :
  (cs_subnets demo_create_request = PyStr.split "," (subnets demo_args)
   ∧ cs_securityGroups demo_create_request = PyStr.split "," (security_groups demo_args))
  ∧ (PyStr.join "," (cs_subnets demo_create_request) = subnets demo_args
     ∧ PyStr.join "," (cs_securityGroups demo_create_request) = security_groups demo_args)
  ∧ (length (cs_subnets demo_create_request) = S (occurrences "," (subnets demo_args))
     ∧ length (cs_securityGroups demo_create_request)
       = S (occurrences "," (security_groups demo_args))).
Proof.
  apply (create_service_lists_are_comma_splits demo_args demo_world demo_create_request).
  vm_compute. do 14 right. left. reflexivity.
Defined.

Example split_trailing_comma : PyStr.split "," "subnet-1, subnet-2," = ["subnet-1"; " subnet-2"; ""].
Proof. reflexivity. Qed.

Example split_empty_argument : PyStr.split "," "" = [""].
Proof. reflexivity. Qed.

(** ** Step 1: the configuration file *)



Lemma load_env_map_document (a : Args) (w : World) (doc : yaml) :
  files w !! env_yml a = Some (Document doc) →
  load_env_map a w = mkRes (out (subscript doc "variables" w)) w [].
Proof.
  intros Hf. unfold load_env_map, bind, py_open. rewrite Hf. simpl.
  destruct doc as [|b|z|s|l|kvs]; simpl; try done.
  by destruct (dict_get "variables" kvs).
Qed.





(** The sample with [variables:] left empty. *)
Example null_variables_uncaught :
  out (main demo_args demo_world_null_variables)
  = Raise (AttributeError "'NoneType' object has no attribute 'items'")
  ∧ calls_of (events (main demo_args demo_world_null_variables))
    = [ Elbv2DescribeTargetGroups ["shop-tg"];
        Elbv2CreateTargetGroup (target_group_request "vpc-0a1b2c" "shop" 8000);
        StsGetCallerIdentity ].
Proof. split; vm_compute; reflexivity. Qed.

(** ** A secret path that is not in the store *)

Lemma resolve_secrets_cons (k : string) (v : yaml) (entries : list (string * yaml))
  (acc : list Secret) :
  resolve_secrets ((k, v) :: entries) acc
  = bind (get_ssm_parameter_arn v)
      (λ arn, resolve_secrets entries (acc ++ [{| sec_name := k; sec_valueFrom := arn |}])).
Proof. reflexivity. Qed.

Lemma paths_to_yaml_cons (k p : string) (paths : list (string * string)) :
  paths_to_yaml ((k, p) :: paths) = (k, YStr p) :: paths_to_yaml paths.
Proof. reflexivity. Qed.

Lemma ecs_mutations_secret_checks (paths : list (string * string)) :
  ecs_mutations (secret_checks paths) = [].
Proof. induction paths as [|kp ps IH]; simpl; done. Qed.

(** A mapping with a missing path has a first one. *)
Lemma first_missing (paths : list (string * string)) (w : World) :
  (∃ k p, In (k, p) paths ∧ ssm_parameters w !! p = None) →
  ∃ checked k p rest,
    paths = checked ++ (k, p) :: rest
    ∧ all_present w checked ∧ ssm_parameters w !! p = None.
Proof.
  induction paths as [|[k0 p0] paths IH]; intros (k & p & Hin & Hp); [destruct Hin|].
  destruct (ssm_parameters w !! p0) as [value|] eqn:Hp0.
  - destruct Hin as [[= -> ->]|Hin]; [congruence|].
    destruct (IH (ex_intro _ k (ex_intro _ p (conj Hin Hp))))
      as (checked & k1 & p1 & rest & -> & Hall & Hp1).
    exists ((k0, p0) :: checked), k1, p1, rest. split; [done|]. split; [|done].
    apply Forall_cons. split; [|done]. simpl. by rewrite Hp0.
  - exists [], k0, p0, paths. split; [done|]. split; [constructor|done].
Qed.

(** The loop stops at the first path that is missing; the entries after it
    are not looked at. *)
Lemma resolve_secrets_first_missing
  (before after : list (string * string)) (k p : string) (acc : list Secret) (w : World) :
  all_present w before → ssm_parameters w !! p = None → p ≠ "" →
  resolve_secrets (paths_to_yaml (before ++ (k, p) :: after)) acc w
  = mkRes (Exit 1) w
      (secret_checks before
       ++ [ Called (SsmGetParameter p);
            Printed ("❌ Error Crítico: El parámetro '" +:+ p
                     +:+ "' definido en env.yml NO existe en AWS Parameter Store.") ]).
Proof.
  intros Hall Hp Hne. revert acc. induction before as [|[k0 p0] before IH]; intros acc.
  - simpl app. rewrite paths_to_yaml_cons, resolve_secrets_cons. unfold bind.
    by rewrite (get_ssm_parameter_arn_missing w p Hp Hne).
  - apply Forall_cons in Hall as [[value Hp0] Hall].
    change (((k0, p0) :: before) ++ (k, p) :: after)
      with ((k0, p0) :: (before ++ (k, p) :: after)).
    rewrite paths_to_yaml_cons, resolve_secrets_cons. unfold bind.
    rewrite (get_ssm_parameter_arn_found w p0 value Hp0), (IH Hall). reflexivity.
Qed.

(** When that first path is the empty one, the loop dies there of the
    validation error, and nothing is printed for it. *)
Lemma resolve_secrets_first_empty
  (before after : list (string * string)) (k : string) (acc : list Secret) (w : World) :
  all_present w before → ssm_parameters w !! "" = None →
  ∃ msg,
    resolve_secrets (paths_to_yaml (before ++ (k, "") :: after)) acc w
    = mkRes (Raise (ParamValidationError msg)) w (secret_checks before).
Proof.
  intros Hall Hp. destruct (get_ssm_parameter_arn_empty w Hp) as [msg Hrun]. exists msg.
  revert acc. induction before as [|[k0 p0] before IH]; intros acc.
  - simpl app. rewrite paths_to_yaml_cons, resolve_secrets_cons. unfold bind.
    by rewrite Hrun.
  - apply Forall_cons in Hall as [[value Hp0] Hall].
    change (((k0, p0) :: before) ++ (k, "") :: after)
      with ((k0, p0) :: (before ++ (k, "") :: after)).
    rewrite paths_to_yaml_cons, resolve_secrets_cons. unfold bind.
    rewrite (get_ssm_parameter_arn_found w p0 value Hp0), (IH Hall). reflexivity.
Qed.

(** With a missing path in the mapping the loop does not return. *)
Lemma resolve_secrets_stops (paths : list (string * string)) (acc : list Secret) (w : World) :
  (∃ k p, In (k, p) paths ∧ ssm_parameters w !! p = None) →
  ∃ o ev, resolve_secrets (paths_to_yaml paths) acc w = mkRes o w ev
          ∧ (∀ secrets, o ≠ Ret secrets) ∧ ecs_mutations ev = [].
Proof.
  intros Hmissing.
  destruct (first_missing paths w Hmissing) as (checked & k & p & rest & -> & Hall & Hp).
  destruct (decide (p = "")) as [->|Hne].
  - destruct (resolve_secrets_first_empty checked rest k acc w Hall Hp) as [msg ->].
    do 2 eexists. split; [done|]. split; [done|]. apply ecs_mutations_secret_checks.
  - rewrite (resolve_secrets_first_missing checked rest k p acc w Hall Hp Hne).
    do 2 eexists. split; [done|]. split; [done|].
    by rewrite ecs_mutations_app, ecs_mutations_secret_checks.
Qed.

(** C2, as the code has it. When the mapping of the configuration file holds
    a path that is not in the parameter store, the run registers no task
    definition and does not complete.  When, besides, the paths of the
    mapping are well-formed parameter names and the target-group step
    returns, the run exits with status 1, and the last things it does are
    the existence check on the first missing path of the mapping and the
    line "❌ Error Crítico: El parámetro '<path>' definido en env.yml NO
    existe en AWS Parameter Store." with this path. *)
Theorem missing_secret_stops_before_registration
  (a : Args) (w : World) (doc : yaml) (paths : list (string * string)) :
  files w !! env_yml a = Some (Document doc) →
  top_level "variables" doc = Some (YMap (paths_to_yaml paths)) →
  (∃ k p, In (k, p) paths ∧ ssm_parameters w !! p = None) →
  count_events is_register (events (main a w)) = 0
  ∧ (∀ u, out (main a w) ≠ Ret u)
  ∧ (Forall (λ kp, well_formed_parameter_name (snd kp) = true) paths →
     target_group_step_returns a w →
     out (main a w) = Exit 1
     ∧ ∃ checked k p rest before,
         paths = checked ++ (k, p) :: rest
         ∧ all_present w checked
         ∧ ssm_parameters w !! p = None
         ∧ events (main a w)
           = before
             ++ [ Called (SsmGetParameter p);
                  Printed ("❌ Error Crítico: El parámetro '" +:+ p
                           +:+ "' definido en env.yml NO existe en AWS Parameter Store.") ]).
Proof.
  intros Hf Hv Hmissing.
  assert (Hload : load_env_map a w = mkRes (Ret (YMap (paths_to_yaml paths))) w []).
  { rewrite (load_env_map_document a w doc Hf).
    destruct doc as [|b|z|s|l|kvs]; simpl in *; try done. by rewrite Hv. }
  unfold target_group_step_returns, main, bind, try_except, print. rewrite Hload.
  destruct (get_or_create_target_group_run (vpc_id a) (project a) 8000 w)
    as (o1 & w1 & ev1 & -> & Hexit1 & _ & _ & Hssm & Hev1 & _).
  destruct o1 as [tg|e|code]; [| |by destruct (Hexit1 code)].
  - unfold get_account_id, sts_get_caller_identity_account, register_task_definition,
      bind, print.
    simpl. rewrite <- Hssm in Hmissing.
    split; [|split].
    + destruct (resolve_secrets_stops paths [] w1 Hmissing) as (o & ev & -> & Hnot & Hquiet).
      rewrite count_register_mutations.
      destruct o as [secrets|e|code]; [by destruct (Hnot secrets)|..]; simpl;
        rewrite !ecs_mutations_app, Hev1; simpl; by rewrite ?ecs_mutations_app, Hquiet.
    + destruct (resolve_secrets_stops paths [] w1 Hmissing) as (o & ev & -> & Hnot & Hquiet).
      destruct o as [secrets|e|code]; [by destruct (Hnot secrets)|..]; done.
    + intros Hwf _.
      destruct (first_missing paths w1 Hmissing) as (checked & k & p & rest & -> & Hall & Hp).
      assert (Hne : p ≠ "").
      { apply well_formed_parameter_name_nonempty.
        apply Forall_app in Hwf as [_ Hwf]. by apply Forall_cons in Hwf as [Hwf _]. }
      rewrite (resolve_secrets_first_missing checked rest k p [] w1 Hall Hp Hne). simpl.
      split; [done|].
      exists checked, k, p, rest,
        (Printed (start_banner a)
         :: ev1 ++ Called StsGetCallerIdentity
         :: Printed "🔄 Generando configuración de secretos..." :: secret_checks checked).
      split; [done|]. unfold all_present in *. rewrite <- Hssm.
      split; [done|]. split; [done|].
      simpl. rewrite <- ?app_assoc. simpl. by rewrite <- ?app_assoc.
  - simpl. split; [|split].
    + rewrite count_register_mutations. simpl. by rewrite Hev1.
    + done.
    + by intros _ [arn [=]].
Qed.

(** The sample run with a second path that the store does not have. *)
Lemma missing_secret_stops_before_registration_witness :
  count_events is_register (events (main demo_args demo_world_missing_secret)) = 0
  ∧ out (main demo_args demo_world_missing_secret) = Exit 1
  ∧ ∃ before,
      events (main demo_args demo_world_missing_secret)
      = before
        ++ [ Called (SsmGetParameter "/prod/api_key");
             Printed "❌ Error Crítico: El parámetro '/prod/api_key' definido en env.yml NO existe en AWS Parameter Store." ].
Proof.
  destruct (missing_secret_stops_before_registration
              demo_args demo_world_missing_secret demo_document demo_paths)
    as (Hreg & _ & Hexit).
  - vm_compute. reflexivity.
  - reflexivity.
  - exists "API_KEY", "/prod/api_key". split; [right; left; reflexivity|vm_compute; reflexivity].
  - split; [exact Hreg|].
    assert (Hwf : Forall (λ kp, well_formed_parameter_name (snd kp) = true) demo_paths)
      by (unfold demo_paths; repeat constructor).
    assert (Htg : target_group_step_returns demo_args demo_world_missing_secret)
      by (eexists; vm_compute; reflexivity).
    destruct (Hexit Hwf Htg)
      as (Hout & checked & k & p & rest & before & Hpaths & Hall & Hp & Hev).
    split; [exact Hout|].
    assert (p = "/prod/api_key") as ->; [|by exists before].
    unfold demo_paths in Hpaths.
    destruct checked as [|[k0 p0] [|[k1 p1] checked]]; simpl in Hpaths.
    + injection Hpaths as <- <- _. vm_compute in Hp. discriminate.
    + by injection Hpaths as _ _ _ <- _.
    + destruct checked; discriminate.
Defined.

(** C2 as the spec states it fails: with a project name too long for the
    name of a target group, the run with the missing secret dies of the
    refused creation of the group; it prints no diagnostic for the secret
    and does not exit with status 1. *)
Lemma missing_secret_long_project_name :
  files demo_world_missing_secret !! env_yml demo_args_long_project
  = Some (Document demo_document)
  ∧ In ("API_KEY", "/prod/api_key") demo_paths
  ∧ ssm_parameters demo_world_missing_secret !! "/prod/api_key" = None
  ∧ out (main demo_args_long_project demo_world_missing_secret)
    = Raise (ValidationError "The target group request is not valid")
  ∧ ¬ missing_secret_diagnosed (main demo_args_long_project demo_world_missing_secret).
Proof.
  assert (Hout : out (main demo_args_long_project demo_world_missing_secret)
                 = Raise (ValidationError "The target group request is not valid"))
    by (vm_compute; reflexivity).
  split; [vm_compute; reflexivity|]. split; [right; left; reflexivity|].
  split; [vm_compute; reflexivity|]. split; [exact Hout|].
  intros [Hexit _]. rewrite Hout in Hexit. discriminate.
Qed.

(** An empty path in the mapping is not diagnosed either: the client
    library refuses the empty name before it sends anything. *)
Example empty_path_undiagnosed :
  (∃ msg, out (main demo_args demo_world_empty_path) = Raise (ParamValidationError msg))
  ∧ ¬ missing_secret_diagnosed (main demo_args demo_world_empty_path)
  ∧ calls_of (events (main demo_args demo_world_empty_path))
    = [ Elbv2DescribeTargetGroups ["shop-tg"];
        Elbv2CreateTargetGroup (target_group_request "vpc-0a1b2c" "shop" 8000);
        StsGetCallerIdentity ].
Proof.
  assert (Hout : ∃ msg, out (main demo_args demo_world_empty_path)
                        = Raise (ParamValidationError msg))
    by (eexists; vm_compute; reflexivity).
  split; [exact Hout|]. split; [|vm_compute; reflexivity].
  destruct Hout as [msg Hout]. intros [Hexit _]. rewrite Hout in Hexit. discriminate.
Qed.

(** ** The values of the parameter store *)

Lemma ssm_blind_ret {A} (a : A) : ssm_blind (ret a).
Proof. by intros w ps _. Qed.

Lemma ssm_blind_raise {A} (e : exn) : ssm_blind (@raise A e).
Proof. by intros w ps _. Qed.

Lemma ssm_blind_sys_exit {A} (code : Z) : ssm_blind (@sys_exit A code).
Proof. by intros w ps _. Qed.

Lemma ssm_blind_print (line : string) : ssm_blind (print line).
Proof. by intros w ps _. Qed.

Lemma ssm_blind_bind {A B} (m : M A) (k : A → M B) :
  ssm_blind m → (∀ a, ssm_blind (k a)) → ssm_blind (bind m k).
Proof.
  intros Hm Hk w ps Hdom. destruct (Hm w ps Hdom) as [Hrun Hsame].
  unfold bind. rewrite Hrun. unfold with_ssm_parameters.
  destruct (m w) as [[a|e|code] w1 ev1]; simpl in *; [|done..].
  rewrite <- Hsame in Hdom. destruct (Hk a w1 ps Hdom) as [Hrun' Hsame'].
  rewrite Hrun'. unfold with_ssm_parameters.
  destruct (k a w1) as [o w2 ev2]; simpl in *. split; [done|]. congruence.
Qed.

Lemma ssm_blind_try_except {A} (m : M A) (handler : exn → option (M A)) :
  ssm_blind m → (∀ e h, handler e = Some h → ssm_blind h) → ssm_blind (try_except m handler).
Proof.
  intros Hm Hh w ps Hdom. destruct (Hm w ps Hdom) as [Hrun Hsame].
  unfold try_except. rewrite Hrun. unfold with_ssm_parameters.
  destruct (m w) as [[a|e|code] w1 ev1]; simpl in *; [done| |done].
  destruct (handler e) as [h|] eqn:He; [|done].
  rewrite <- Hsame in Hdom. destruct (Hh e h He w1 ps Hdom) as [Hrun' Hsame'].
  rewrite Hrun'. unfold with_ssm_parameters.
  destruct (h w1) as [o w2 ev2]; simpl in *. split; [done|]. congruence.
Qed.

(** The existence check returns the stored value; a script that throws the
    value away only learns whether the path is there. *)
Lemma ssm_blind_get_parameter_then {A} (name : string) (k : M A) :
  ssm_blind k → ssm_blind (bind (ssm_get_parameter name) (λ _, k)).
Proof.
  intros Hk w ps Hdom. destruct (Hk w ps Hdom) as [Hrun Hsame].
  unfold bind, ssm_get_parameter.
  assert (Hiff : is_Some (ps !! name) ↔ is_Some (ssm_parameters w !! name))
    by (by rewrite <- !elem_of_dom, Hdom).
  replace (ssm_parameters (set_ssm_parameters ps w)) with ps by (by destruct w).
  destruct (ps !! name) as [v1|] eqn:H1, (ssm_parameters w !! name) as [v2|] eqn:H2.
  - rewrite Hrun. unfold with_ssm_parameters. by destruct (k w).
  - destruct Hiff as [Hiff _]. destruct (Hiff (mk_is_Some _ _ eq_refl)) as [? [=]].
  - destruct Hiff as [_ Hiff]. destruct (Hiff (mk_is_Some _ _ eq_refl)) as [? [=]].
  - by destruct (String.eqb name "").
Qed.

Ltac blind_primitive :=
  intros w ps _; destruct w;
  unfold with_ssm_parameters, target_group_request_accepted, networks_known; simpl;
  repeat case_match; simpl; done.

Lemma ssm_blind_py_open (path : string) : ssm_blind (py_open path).
Proof. unfold py_open. blind_primitive. Qed.

Lemma ssm_blind_yaml_safe_load (f : file) : ssm_blind (yaml_safe_load f).
Proof. destruct f; apply ssm_blind_ret || apply ssm_blind_raise. Qed.

Lemma ssm_blind_subscript (obj : yaml) (key : string) : ssm_blind (subscript obj key).
Proof.
  destruct obj as [|b|z|s|l|kvs]; simpl; try apply ssm_blind_raise.
  destruct (dict_get key kvs); [apply ssm_blind_ret|apply ssm_blind_raise].
Qed.

Lemma ssm_blind_items (obj : yaml) : ssm_blind (items obj).
Proof. destruct obj; simpl; apply ssm_blind_ret || apply ssm_blind_raise. Qed.

Lemma ssm_blind_first {A} (l : list A) : ssm_blind (first l).
Proof. destruct l; [apply ssm_blind_raise|apply ssm_blind_ret]. Qed.

Lemma ssm_blind_session_region_name : ssm_blind session_region_name.
Proof. unfold session_region_name. blind_primitive. Qed.

Lemma ssm_blind_get_account_id : ssm_blind get_account_id.
Proof. unfold get_account_id, sts_get_caller_identity_account. blind_primitive. Qed.

Lemma ssm_blind_elbv2_describe_target_groups (names : list string) :
  ssm_blind (elbv2_describe_target_groups names).
Proof. unfold elbv2_describe_target_groups. blind_primitive. Qed.

Lemma ssm_blind_elbv2_create_target_group (req : CreateTargetGroupReq) :
  ssm_blind (elbv2_create_target_group req).
Proof. unfold elbv2_create_target_group. blind_primitive. Qed.

Lemma ssm_blind_ecs_register_task_definition (req : RegisterTaskDefinitionReq) :
  ssm_blind (ecs_register_task_definition req).
Proof. unfold ecs_register_task_definition. blind_primitive. Qed.

Lemma ssm_blind_ecs_describe_services (c : string) (names : list string) :
  ssm_blind (ecs_describe_services c names).
Proof. unfold ecs_describe_services. blind_primitive. Qed.

Lemma ssm_blind_ecs_create_service (req : CreateServiceReq) :
  ssm_blind (ecs_create_service req).
Proof. unfold ecs_create_service. blind_primitive. Qed.

Lemma ssm_blind_ecs_update_service (req : UpdateServiceReq) :
  ssm_blind (ecs_update_service req).
Proof. unfold ecs_update_service. blind_primitive. Qed.

Create HintDb blind discriminated.
#[local] Hint Resolve ssm_blind_ret ssm_blind_raise ssm_blind_sys_exit ssm_blind_print
  ssm_blind_py_open ssm_blind_yaml_safe_load ssm_blind_subscript ssm_blind_items
  ssm_blind_first ssm_blind_session_region_name ssm_blind_get_account_id
  ssm_blind_elbv2_describe_target_groups ssm_blind_elbv2_create_target_group
  ssm_blind_ecs_register_task_definition ssm_blind_ecs_describe_services
  ssm_blind_ecs_create_service ssm_blind_ecs_update_service : blind.

Ltac blind :=
  repeat first
    [ apply ssm_blind_get_parameter_then
    | apply ssm_blind_bind; [|intros ?]
    | apply ssm_blind_try_except; [|intros ? ? ?]
    | solve [auto with blind] ].

Lemma ssm_blind_get_ssm_parameter_arn (v : yaml) : ssm_blind (get_ssm_parameter_arn v).
Proof.
  destruct v as [|b|z|name|l|kvs]; simpl; try apply ssm_blind_raise.
  apply ssm_blind_try_except.
  - blind.
  - intros e h He. destruct e; simplify_eq. blind.
Qed.

Lemma ssm_blind_resolve_secrets (entries : list (string * yaml)) (acc : list Secret) :
  ssm_blind (resolve_secrets entries acc).
Proof.
  revert acc. induction entries as [|[k v] entries IH]; intros acc; simpl.
  - apply ssm_blind_ret.
  - apply ssm_blind_bind; [apply ssm_blind_get_ssm_parameter_arn|]. intros arn. apply IH.
Qed.

Lemma ssm_blind_get_or_create_target_group (vpc proj : string) (port : Z) :
  ssm_blind (get_or_create_target_group vpc proj port).
Proof.
  unfold get_or_create_target_group. apply ssm_blind_bind.
  - apply ssm_blind_try_except; [blind|].
    intros e h He. destruct e; simplify_eq. blind.
  - intros [arn|]; blind.
Qed.

Lemma ssm_blind_register_task_definition (img proj role : string) (env : yaml) :
  ssm_blind (register_task_definition img proj role env).
Proof.
  unfold register_task_definition.
  apply ssm_blind_bind; [blind|]. intros _.
  apply ssm_blind_bind; [blind|]. intros entries.
  apply ssm_blind_bind; [apply ssm_blind_resolve_secrets|]. intros secrets. blind.
Qed.

Lemma ssm_blind_deploy_service (c n td tg : string) (sn sg : list string) :
  ssm_blind (deploy_service c n td tg sn sg).
Proof.
  unfold deploy_service.
  apply ssm_blind_bind; [blind|]. intros _.
  apply ssm_blind_bind.
  { apply ssm_blind_try_except; [blind|]. intros e h He. destruct e; simplify_eq; blind. }
  intros found. apply ssm_blind_bind; [blind|]. intros response.
  apply ssm_blind_bind.
  { destruct response as [|sv ?]; [blind|]. destruct (String.eqb (status sv) "INACTIVE"); blind. }
  intros [|]; blind.
Qed.

Lemma ssm_blind_main (a : Args) : ssm_blind (main a).
Proof.
  unfold main.
  apply ssm_blind_bind; [blind|]. intros _.
  apply ssm_blind_bind.
  { apply ssm_blind_try_except.
    - unfold load_env_map. blind.
    - intros e h [= <-]. blind. }
  intros env. apply ssm_blind_bind; [apply ssm_blind_get_or_create_target_group|].
  intros tg. apply ssm_blind_bind; [blind|].
  intros acc. apply ssm_blind_bind; [apply ssm_blind_register_task_definition|].
  intros td. apply ssm_blind_bind; [apply ssm_blind_deploy_service|]. intros _. blind.
Qed.

(** C7. The script never uses the value of a parameter.  In two accounts
    that differ only in the values stored under the same paths, the secret
    resolver and the whole run send the same calls, print the same lines and
    end the same way, and they leave the stored values as they were. *)
Theorem secret_values_never_observed (a : Args) (w : World) (ps : gmap string string) :
  dom ps = dom (ssm_parameters w) →
  (∀ v, get_ssm_parameter_arn v (set_ssm_parameters ps w)
        = with_ssm_parameters ps (get_ssm_parameter_arn v w))
  ∧ out (main a (set_ssm_parameters ps w)) = out (main a w)
  ∧ events (main a (set_ssm_parameters ps w)) = events (main a w)
  ∧ world (main a (set_ssm_parameters ps w)) = set_ssm_parameters ps (world (main a w))
  ∧ ssm_parameters (world (main a w)) = ssm_parameters w.
Proof.
  intros Hdom. split.
  - intros v. by apply ssm_blind_get_ssm_parameter_arn.
  - destruct (ssm_blind_main a w ps Hdom) as [-> Hsame]. done.
Qed.

(** The sample run after the secret has been rotated. *)
Lemma secret_values_never_observed_witness :
  (∀ v, get_ssm_parameter_arn v (set_ssm_parameters demo_rotated_parameters demo_world)
        = with_ssm_parameters demo_rotated_parameters (get_ssm_parameter_arn v demo_world))
  ∧ out (main demo_args (set_ssm_parameters demo_rotated_parameters demo_world))
    = out (main demo_args demo_world)
  ∧ events (main demo_args (set_ssm_parameters demo_rotated_parameters demo_world))
    = events (main demo_args demo_world)
  ∧ world (main demo_args (set_ssm_parameters demo_rotated_parameters demo_world))
    = set_ssm_parameters demo_rotated_parameters (world (main demo_args demo_world))
  ∧ ssm_parameters (world (main demo_args demo_world)) = ssm_parameters demo_world.
Proof.
  apply (secret_values_never_observed demo_args demo_world demo_rotated_parameters).
  unfold demo_rotated_parameters. simpl. by rewrite !dom_singleton_L.
Defined.

(** ** The container name of the load-balancer binding *)

Lemma startswith_append_tail (a : ascii) (old t p : string) :
  occurrences a t = 0 → (∃ rest, old = String a rest) →
  PyStr.startswith t p = false → PyStr.startswith t (p +:+ old) = false.
Proof.
  intros Ht [rest ->]. revert p. induction t as [|b t IH]; intros p; simpl; [done|].
  simpl in Ht. destruct (Ascii.eqb b a) eqn:Hba; [done|].
  destruct p as [|c p].
  - intros _. change ("" +:+ String a rest) with (String a rest).
    simpl. by rewrite Hba.
  - change (String c p +:+ String a rest) with (String c (p +:+ String a rest)). simpl.
    destruct (Ascii.eqb b c); simpl; [|done]. apply IH. simpl in Ht. lia.
Qed.

Lemma startswith_append (a : ascii) (t p : string) :
  occurrences a t = 0 → p ≠ EmptyString →
  PyStr.startswith (String a t) p = false →
  PyStr.startswith (String a t) (p +:+ String a t) = false.
Proof.
  intros Ht Hp. destruct p as [|c p]; [done|].
  change (String c p +:+ String a t) with (String c (p +:+ String a t)). simpl.
  destruct (Ascii.eqb a c); simpl; [|done].
  apply (startswith_append_tail a); eauto.
Qed.

Lemma replace_from_skip (old new : string) (k : nat) (t : string) :
  (String.length t ≤ k)%nat → PyStr.replace_from old new k t = EmptyString.
Proof.
  revert k. induction t as [|c t IH]; intros k Hk; simpl; [done|].
  simpl in Hk. destruct k as [|k]; [lia|]. apply IH. lia.
Qed.

Lemma startswith_self (s : string) : PyStr.startswith s s = true.
Proof. induction s as [|c s IH]; simpl; [done|]. by rewrite Ascii.eqb_refl, IH. Qed.

(** Removing [old] from [p +:+ old] gives [p] back when [old] does not
    occur in [p] and the first character of [old] does not occur again in
    it: the only occurrence is then the one at the end. *)
Lemma replace_suffix (a : ascii) (t p : string) :
  occurrences a t = 0 →
  PyStr.contains (String a t) p = false →
  PyStr.replace (String a t) "" (p +:+ String a t) = p.
Proof.
  intros Ht. unfold PyStr.replace. induction p as [|c p IH]; intros Hp.
  - change ("" +:+ String a t) with (String a t).
    cbn [PyStr.replace_from]. rewrite (startswith_self (String a t)).
    change ("" +:+ ?x) with x. apply replace_from_skip. simpl. lia.
  - cbn [PyStr.contains] in Hp. apply orb_false_iff in Hp as [Hstart Hrest].
    pose proof (startswith_append a t (String c p) Ht ltac:(done) Hstart) as Hs.
    change (String c p +:+ String a t) with (String c (p +:+ String a t)) in *.
    cbn [PyStr.replace_from]. rewrite Hs. f_equal. by apply IH.
Qed.

(** For a project whose name does not contain "-service" the two container
    names agree. *)
Lemma binding_container_name_matches (project : string) :
  PyStr.contains "-service" project = false →
  binding_container_name (project +:+ "-service") = container_name project.
Proof.
  intros Hp. unfold binding_container_name, container_name.
  by rewrite (replace_suffix "-" "service" project eq_refl Hp).
Qed.

(** C8, at the input where the code fails it. For the project
    "my-service-api" the task definition registers the container
    "my-service-api-container", and the load-balancer binding of the
    create-service call names "my-api-container": [replace] removes every
    "-service" of the service name, not only the suffix that was added. *)
Theorem binding_container_name_mismatch :
  PyStr.contains "-service" (project demo_args_service_in_name) = true
  ∧ ∃ reg cre,
      ecs_mutations (events (main demo_args_service_in_name demo_world))
      = [EcsRegisterTaskDefinition reg; EcsCreateService cre]
      ∧ map cd_name (rtd_containerDefinitions reg) = ["my-service-api-container"]
      ∧ map lb_containerName (cs_loadBalancers cre) = ["my-api-container"].
Proof.
  split; [reflexivity|]. do 2 eexists. vm_compute. split; [reflexivity|]. split; reflexivity.
Qed.

(** * Further properties *)

(** ** The registrar and its loop *)

(** When every path is in the store the loop appends one entry for each,
    in the order of the mapping. *)
Lemma resolve_secrets_found (paths : list (string * string)) (acc : list Secret) (w : World) :
  all_present w paths →
  resolve_secrets (paths_to_yaml paths) acc w
  = mkRes (Ret (acc ++ secrets_of (region_name w) (account w) paths)) w (secret_checks paths).
Proof.
  revert acc. induction paths as [|[k p] paths IH]; intros acc Hall.
  - simpl. unfold ret. by rewrite app_nil_r.
  - apply Forall_cons in Hall as [[value Hp] Hall].
    rewrite paths_to_yaml_cons, resolve_secrets_cons. unfold bind.
    rewrite (get_ssm_parameter_arn_found w p value Hp), (IH _ Hall).
    simpl. by rewrite <- app_assoc.
Qed.

Lemma register_task_definition_found
  (img proj role : string) (paths : list (string * string)) (w : World) :
  all_present w paths →
  register_task_definition img proj role (YMap (paths_to_yaml paths)) w
  = mkRes (Ret (task_definition_arn w proj (S (revisions proj (task_definitions w)))))
      (set_task_definitions
         (task_definitions w
          ++ [task_definition_request img proj role (region_name w)
                (secrets_of (region_name w) (account w) paths)]) w)
      (Printed "🔄 Generando configuración de secretos..."
       :: secret_checks paths
       ++ [ Printed ("📝 Registrando nueva Task Definition para: " +:+ proj);
            Called (EcsRegisterTaskDefinition
                      (task_definition_request img proj role (region_name w)
                         (secrets_of (region_name w) (account w) paths))) ]).
Proof.
  intros Hall. unfold register_task_definition, bind, print, items, ret.
  rewrite (resolve_secrets_found paths [] w Hall). reflexivity.
Qed.

Lemma calls_of_app (l1 l2 : list Event) : calls_of (l1 ++ l2) = calls_of l1 ++ calls_of l2.
Proof. induction l1 as [|[c|s] l1 IH]; simpl; by rewrite ?IH. Qed.

Lemma calls_of_secret_checks (paths : list (string * string)) :
  calls_of (secret_checks paths)
  = flat_map (λ kp, [SsmGetParameter (snd kp); StsGetCallerIdentity]) paths.
Proof. induction paths as [|kp paths IH]; simpl; by rewrite ?IH. Qed.

(** X1. When every path of the mapping is in the store, the registrar
    returns and registers one task definition whose secrets are, in the order
    of the mapping, the variable names with the identifiers of their paths;
    it has sent an existence check and an identity call for each entry, then
    the registration, and has changed nothing else in the account. *)
Theorem register_task_definition_secrets_in_order
  (img proj role : string) (paths : list (string * string)) (w : World) :
  all_present w paths →
  let r := register_task_definition img proj role (YMap (paths_to_yaml paths)) w in
  let req := task_definition_request img proj role (region_name w)
               (secrets_of (region_name w) (account w) paths) in
  (∃ arn, out r = Ret arn)
  ∧ calls_of (events r)
    = flat_map (λ kp, [SsmGetParameter (snd kp); StsGetCallerIdentity]) paths
      ++ [EcsRegisterTaskDefinition req]
  ∧ map cd_secrets (rtd_containerDefinitions req)
    = [map (λ kp, {| sec_name := fst kp;
                     sec_valueFrom := ssm_parameter_arn (region_name w) (account w) (snd kp) |})
         paths]
  ∧ world r = set_task_definitions (task_definitions w ++ [req]) w.
Proof.
  intros Hall r req. subst r req. rewrite (register_task_definition_found img proj role paths w Hall).
  simpl. split; [eauto|]. split; [|done].
  by rewrite calls_of_app, calls_of_secret_checks.
Qed.

(** The sample account and its one path. *)
Lemma register_task_definition_secrets_in_order_witness :
  let r := register_task_definition "img" "shop" "role"
             (YMap (paths_to_yaml demo_present_paths)) demo_world in
  let req := task_definition_request "img" "shop" "role" (region_name demo_world)
               (secrets_of (region_name demo_world) (account demo_world) demo_present_paths) in
  (∃ arn, out r = Ret arn)
  ∧ calls_of (events r)
    = flat_map (λ kp, [SsmGetParameter (snd kp); StsGetCallerIdentity]) demo_present_paths
      ++ [EcsRegisterTaskDefinition req]
  ∧ map cd_secrets (rtd_containerDefinitions req)
    = [map (λ kp, {| sec_name := fst kp;
                     sec_valueFrom := ssm_parameter_arn (region_name demo_world)
                                        (account demo_world) (snd kp) |})
         demo_present_paths]
  ∧ world r = set_task_definitions (task_definitions demo_world ++ [req]) demo_world.
Proof.
  apply (register_task_definition_secrets_in_order "img" "shop" "role"
           demo_present_paths demo_world).
  repeat constructor. vm_compute. eauto.
Defined.

(** X2. The registrar fails fast and in order: with the paths before the
    first missing one in the store, and that one a well-formed parameter
    name, it checks exactly those and the missing one, prints the line
    "❌ Error Crítico: El parámetro '<path>' definido en env.yml NO existe en
    AWS Parameter Store." for it and exits with status 1; the entries after
    it are never checked, no task definition is registered and the account
    is unchanged. *)
Theorem register_task_definition_stops_at_first_missing
  (img proj role : string) (before after : list (string * string)) (k p : string) (w : World) :
  all_present w before → ssm_parameters w !! p = None →
  well_formed_parameter_name p = true →
  register_task_definition img proj role
    (YMap (paths_to_yaml (before ++ (k, p) :: after))) w
  = mkRes (Exit 1) w
      (Printed "🔄 Generando configuración de secretos..."
       :: secret_checks before
       ++ [ Called (SsmGetParameter p);
            Printed ("❌ Error Crítico: El parámetro '" +:+ p
                     +:+ "' definido en env.yml NO existe en AWS Parameter Store.") ]).
Proof.
  intros Hall Hp Hwf. unfold register_task_definition, bind, print, items, ret.
  by rewrite (resolve_secrets_first_missing before after k p [] w Hall Hp
                (well_formed_parameter_name_nonempty p Hwf)).
Qed.

(** The sample with a second and a third path, both missing: only the
    second is checked. *)
Lemma register_task_definition_stops_at_first_missing_witness :
  register_task_definition "img" "shop" "role"
    (YMap (paths_to_yaml (demo_present_paths
                          ++ ("API_KEY", "/prod/api_key") :: [("TOKEN", "/prod/token")])))
    demo_world
  = mkRes (Exit 1) demo_world
      (Printed "🔄 Generando configuración de secretos..."
       :: secret_checks demo_present_paths
       ++ [ Called (SsmGetParameter "/prod/api_key");
            Printed ("❌ Error Crítico: El parámetro '" +:+ "/prod/api_key"
                     +:+ "' definido en env.yml NO existe en AWS Parameter Store.") ]).
Proof.
  apply (register_task_definition_stops_at_first_missing "img" "shop" "role"
           demo_present_paths [("TOKEN", "/prod/token")] "API_KEY" "/prod/api_key" demo_world).
  - repeat constructor. vm_compute. eauto.
  - vm_compute. reflexivity.
  - vm_compute. reflexivity.
Defined.

(** ** The service reconciler, again *)

(** X3. Only the exact status "INACTIVE" makes a service that is found
    count as absent: for any other status, DRAINING included, the reconciler
    sends its two lookups and then an update that points the service at the
    given task definition with [forceNewDeployment]; it does not create. *)
Theorem deploy_service_updates_unless_inactive
  (w : World) (c n td tg : string) (sn sg : list string) (sv : Service) :
  services w !! (c, n) = Some sv → status sv ≠ "INACTIVE" →
  calls_of (events (deploy_service c n td tg sn sg w))
  = [ EcsDescribeServices c [n]; EcsDescribeServices c [n];
      EcsUpdateService {| us_cluster := c; us_service := n;
                          us_taskDefinition := td; us_forceNewDeployment := true |} ].
Proof.
  intros Hsv Hst.
  assert (Hans : service_lookup_answers w c n)
    by (apply service_lookup_answers_iff; left; by rewrite Hsv).
  destruct (deploy_service_events w c n td tg sn sg Hans) as (tail & -> & Htail & _).
  rewrite calls_of_app. unfold service_found. rewrite Hsv.
  apply String.eqb_neq in Hst. rewrite Hst. simpl.
  assert (calls_of tail = []) as ->; [|done].
  clear -Htail. induction Htail as [|[c|s] l He _ IH]; simpl; done.
Qed.

(** The sample account while the service is draining. *)
Lemma deploy_service_updates_unless_inactive_witness :
  calls_of (events (deploy_service "main" "shop-service" "td" "tg" ["subnet-1"] ["sg-1"]
                      demo_world_draining))
  = [ EcsDescribeServices "main" ["shop-service"]; EcsDescribeServices "main" ["shop-service"];
      EcsUpdateService {| us_cluster := "main"; us_service := "shop-service";
                          us_taskDefinition := "td"; us_forceNewDeployment := true |} ].
Proof.
  apply (deploy_service_updates_unless_inactive demo_world_draining "main" "shop-service"
           "td" "tg" ["subnet-1"] ["sg-1"]
           {| serviceArn := "arn:aws:ecs:us-east-1:123456789012:service/main/shop-service";
              status := "DRAINING";
              taskDefinition := "arn:aws:ecs:us-east-1:123456789012:task-definition/shop:1" |}).
  - vm_compute. reflexivity.
  - simpl. discriminate.
Defined.

(** ** The stages, with what they leave untouched *)

Lemma revisions_snoc (family : string) (tds : list RegisterTaskDefinitionReq)
  (req : RegisterTaskDefinitionReq) :
  rtd_family req = family → revisions family (tds ++ [req]) = S (revisions family tds).
Proof.
  intros <-. induction tds as [|td tds IH]; simpl.
  - by rewrite String.eqb_refl.
  - rewrite IH. lia.
Qed.

(** The resolver returns or raises.  What it returns is the identifier of
    the group that the account holds under the project's name afterwards; it
    touches only the target groups. *)
Lemma get_or_create_target_group_frame (vpc proj : string) (port : Z) (w : World) :
  ∃ o w1 ev1,
    get_or_create_target_group vpc proj port w = mkRes o w1 ev1
    ∧ (∀ code, o ≠ Exit code)
    ∧ (∀ arn, o = Ret arn →
         ∃ tgrec, arn = TargetGroupArn tgrec
                  ∧ target_groups w1 !! (proj +:+ "-tg") = Some tgrec)
    ∧ files w1 = files w ∧ ssm_parameters w1 = ssm_parameters w
    ∧ services w1 = services w ∧ task_definitions w1 = task_definitions w
    ∧ region_name w1 = region_name w ∧ account w1 = account w
    ∧ clusters w1 = clusters w
    ∧ ecs_mutations ev1 = []
    ∧ (is_Some (target_groups w !! (proj +:+ "-tg")) →
       w1 = w ∧ count_events is_create_target_group ev1 = 0).
Proof.
  destruct (target_groups w !! (proj +:+ "-tg")) as [tg|] eqn:Htg.
  - rewrite (get_or_create_target_group_found w vpc proj port tg Htg).
    do 3 eexists. split; [done|]. split; [done|]. split.
    + intros arn [= <-]. by exists tg.
    + by repeat split.
  - destruct (target_group_creation_accepted w vpc proj port) eqn:Hacc.
    + rewrite (get_or_create_target_group_absent w vpc proj port Htg Hacc).
      do 3 eexists. split; [reflexivity|]. split; [done|]. split.
      * intros arn [= <-]. eexists. split; [|apply lookup_insert_eq]. done.
      * simpl. repeat split; try done; by intros [? [=]].
    + destruct (get_or_create_target_group_refused w vpc proj port Htg Hacc)
        as (e & ev & -> & Hev).
      do 3 eexists. split; [reflexivity|]. split; [done|]. split; [by intros ? [=]|].
      repeat split; try done; try by intros [? [=]].
      simpl. apply ecs_mutations_none. intros c Hc. by rewrite (Hev c Hc).
Qed.

(** A registrar that returns has registered the request built from the
    arguments, as the newest revision of the family; one that does not
    return has left the account as it was. *)
Lemma register_task_definition_frame (img proj role : string) (env : yaml) (w : World) :
  let r := register_task_definition img proj role env w in
  (∀ td, out r = Ret td →
     ∃ secrets,
       ecs_mutations (events r)
       = [EcsRegisterTaskDefinition (task_definition_request img proj role (region_name w) secrets)]
       ∧ world r
         = set_task_definitions
             (task_definitions w
              ++ [task_definition_request img proj role (region_name w) secrets]) w
       ∧ td = task_definition_arn w proj (S (revisions proj (task_definitions w))))
  ∧ ((∀ td, out r ≠ Ret td) → world r = w ∧ ecs_mutations (events r) = []).
Proof.
  unfold register_task_definition, bind, print. simpl.
  destruct env as [|b|z|s|l|entries]; simpl; try by (split; [intros ? [=]|]).
  destruct (resolve_secrets_run entries [] w) as (o & ev & -> & Hev).
  destruct o as [secrets|e|code]; simpl.
  - split.
    + intros td [= <-]. exists secrets. rewrite ecs_mutations_app, Hev. done.
    + intros Hnot. by destruct (Hnot _ eq_refl).
  - by split; [intros ? [=]|].
  - by split; [intros ? [=]|].
Qed.

(** The reconciler touches only the services. *)
Lemma deploy_service_frame (w : World) (c n td tg : string) (sn sg : list string) :
  let w' := world (deploy_service c n td tg sn sg w) in
  target_groups w' = target_groups w ∧ task_definitions w' = task_definitions w
  ∧ region_name w' = region_name w ∧ account w' = account w
  ∧ files w' = files w ∧ ssm_parameters w' = ssm_parameters w.
Proof.
  unfold deploy_service, bind, try_except, print, ret, raise, first,
    ecs_create_service, ecs_update_service.
  rewrite !ecs_describe_services_one.
  destruct (services w !! (c, n)) as [sv|] eqn:Hsv.
  - destruct (String.eqb (status sv) "INACTIVE") eqn:Hst.
    + repeat (simpl; rewrite ?ecs_describe_services_one, ?Hsv, ?Hst).
      destruct (networks_known _ _); simpl; done.
    + repeat (simpl; rewrite ?ecs_describe_services_one, ?Hsv, ?Hst).
      destruct (String.eqb (status sv) "ACTIVE"); simpl; done.
  - destruct (bool_decide (c ∈ clusters w)) eqn:Hb.
    + repeat (simpl; rewrite ?ecs_describe_services_one, ?Hsv, ?Hb).
      destruct (networks_known _ _); simpl; done.
    + repeat (simpl; rewrite ?ecs_describe_services_one, ?Hsv, ?Hb). done.
Qed.

(** ** How a run wires the service *)

(** A run that issues a mutation of a service has registered the request
    built from the command line, and the mutation is the one of the service
    of the project, with the newest revision of the family and the
    identifier of the target group that the account holds under the
    project's name. *)
Lemma main_wiring (a : Args) (w : World) :
  (ecs_mutations (events (main a w)) = [] ∧ ∀ u, out (main a w) ≠ Ret u)
  ∨ (∃ req, ecs_mutations (events (main a w)) = [EcsRegisterTaskDefinition req])
  ∨ ∃ secrets tgrec w2,
      ecs_mutations (events (main a w))
      = [ EcsRegisterTaskDefinition
            (task_definition_request (image a) (project a)
               (execution_role_arn (account w)) (region_name w) secrets);
          service_mutation w2 (cluster a) (project a +:+ "-service")
            (latest_revision_arn (world (main a w)) (project a)) (TargetGroupArn tgrec)
            (PyStr.split "," (subnets a)) (PyStr.split "," (security_groups a)) ]
      ∧ target_groups (world (main a w)) !! (project a +:+ "-tg") = Some tgrec.
Proof.
  unfold main, bind, try_except, print, sys_exit.
  destruct (load_env_map_run a w) as (o & -> & Hexit).
  destruct o as [env|e|code]; [|by left|by destruct (Hexit code)].
  destruct (get_or_create_target_group_frame (vpc_id a) (project a) 8000 w)
    as (o1 & w1 & ev1 & -> & Hexit1 & Hret1 & _ & _ & _ & _ & Hreg1 & Hacc1 & _ & Hev1 & _).
  destruct o1 as [tg|e|code]; [|left; simpl; by rewrite Hev1|by destruct (Hexit1 code)].
  destruct (Hret1 tg eq_refl) as (tgrec & -> & Htg).
  unfold get_account_id, sts_get_caller_identity_account.
  pose proof (register_task_definition_frame (image a) (project a)
                (execution_role_arn (account w1)) env w1) as [Hret Hstop].
  destruct (register_task_definition _ _ _ _ w1) as [[td|e|code] w2 ev2]; simpl in Hret, Hstop.
  - right. destruct (Hret td eq_refl) as (secrets & Hev2 & -> & ->).
    match goal with
    | |- context [deploy_service ?c ?n ?td ?t ?sn ?sg ?w2] =>
        destruct (service_lookup_answers_or_not w2 c n) as [Hans|Hans];
        [ pose proof (deploy_service_mutations w2 c n td t sn sg Hans) as Hdep;
          pose proof (deploy_service_frame w2 c n td t sn sg)
            as (Hf_tg & Hf_td & Hf_reg & Hf_acc & _)
        | rewrite (deploy_service_unanswered w2 c n td t sn sg Hans) ]
    end.
    + right. exists secrets, tgrec. eexists.
      destruct (deploy_service _ _ _ _ _ _ _) as [o3 w3 ev3].
      simpl in Hdep, Hf_tg, Hf_td, Hf_reg, Hf_acc.
      assert (Hlatest : latest_revision_arn w3 (project a)
                        = task_definition_arn w1 (project a)
                            (S (revisions (project a) (task_definitions w1)))).
      { unfold latest_revision_arn, task_definition_arn.
        rewrite Hf_td, Hf_reg, Hf_acc, revisions_snoc by done. reflexivity. }
      rewrite <- Hreg1, <- Hacc1.
      destruct o3 as [[]|e|code]; simpl;
        rewrite Hlatest, Hf_tg, !ecs_mutations_app, Hev1; simpl;
        rewrite !ecs_mutations_app, Hev2, ?ecs_mutations_app, Hdep; simpl;
        rewrite ?app_nil_r; split; done.
    + left. eexists. simpl.
      rewrite !ecs_mutations_app, Hev1. simpl. rewrite !ecs_mutations_app, Hev2. done.
  - left. destruct (Hstop ltac:(done)) as [-> Hev2]. simpl.
    split; [|done]. rewrite !ecs_mutations_app, Hev1. simpl. by rewrite Hev2.
  - left. destruct (Hstop ltac:(done)) as [-> Hev2]. simpl.
    split; [|done]. rewrite !ecs_mutations_app, Hev1. simpl. by rewrite Hev2.
Qed.

(** X4. Whatever service mutation a run issues is addressed to the service
    "<project>-service" of the given cluster and carries the identifier of
    the newest task definition revision of the project, the one this run has
    registered.  A creation binds the service to the target group that the
    account holds under "<project>-tg", on container port 8000, with one
    desired task. *)
Theorem service_mutation_wiring (a : Args) (w : World) :
  (∀ cre, In (Called (EcsCreateService cre)) (events (main a w)) →
     cs_cluster cre = cluster a
     ∧ cs_serviceName cre = project a +:+ "-service"
     ∧ cs_taskDefinition cre = latest_revision_arn (world (main a w)) (project a)
     ∧ cs_desiredCount cre = 1%Z
     ∧ ∃ tgrec, target_groups (world (main a w)) !! (project a +:+ "-tg") = Some tgrec
                ∧ map (λ lb, (lb_targetGroupArn lb, lb_containerPort lb)) (cs_loadBalancers cre)
                  = [(TargetGroupArn tgrec, 8000%Z)])
  ∧ (∀ upd, In (Called (EcsUpdateService upd)) (events (main a w)) →
       us_cluster upd = cluster a
       ∧ us_service upd = project a +:+ "-service"
       ∧ us_taskDefinition upd = latest_revision_arn (world (main a w)) (project a)).
Proof.
  split.
  - intros cre Hin. apply in_ecs_mutations in Hin; [|done].
    destruct (main_wiring a w)
      as [[Hnone _]|[[r Hone]|(secrets & tgrec & w2 & Hmut & Htg)]].
    + rewrite Hnone in Hin. destruct Hin.
    + rewrite Hone in Hin. by destruct Hin as [[=]|[]].
    + rewrite Hmut in Hin. unfold service_mutation in Hin.
      destruct (service_found _ _ _); destruct Hin as [[=]|[[=]|[]]]. subst cre. simpl.
      repeat split; try done. by exists tgrec.
  - intros upd Hin. apply in_ecs_mutations in Hin; [|done].
    destruct (main_wiring a w)
      as [[Hnone _]|[[r Hone]|(secrets & tgrec & w2 & Hmut & Htg)]].
    + rewrite Hnone in Hin. destruct Hin.
    + rewrite Hone in Hin. by destruct Hin as [[=]|[]].
    + rewrite Hmut in Hin. unfold service_mutation in Hin.
      destruct (service_found _ _ _); destruct Hin as [[=]|[[=]|[]]]. by subst upd.
Qed.

(** X5. For a project whose name does not contain "-service", the container
    named in the load-balancer binding of a creation is the container that
    the task definition registered in the same run defines. *)
Theorem binding_names_registered_container
  (a : Args) (w : World) (reg : RegisterTaskDefinitionReq) (cre : CreateServiceReq) :
  PyStr.contains "-service" (project a) = false →
  In (Called (EcsRegisterTaskDefinition reg)) (events (main a w)) →
  In (Called (EcsCreateService cre)) (events (main a w)) →
  map lb_containerName (cs_loadBalancers cre) = map cd_name (rtd_containerDefinitions reg)
  ∧ map cd_name (rtd_containerDefinitions reg) = [project a +:+ "-container"].
Proof.
  intros Hname Hreg Hcre.
  apply in_ecs_mutations in Hreg; [|done]. apply in_ecs_mutations in Hcre; [|done].
  destruct (main_wiring a w) as [[Hnone _]|[[r Hone]|(secrets & tgrec & w2 & Hmut & _)]].
  - rewrite Hnone in Hreg. destruct Hreg.
  - rewrite Hone in Hcre. by destruct Hcre as [[=]|[]].
  - rewrite Hmut in Hreg, Hcre. unfold service_mutation in Hreg, Hcre.
    destruct (service_found _ _ _).
    + destruct Hcre as [[=]|[[=]|[]]].
    + destruct Hreg as [[= <-]|[[=]|[]]]. destruct Hcre as [[=]|[[= <-]|[]]]. simpl.
      by rewrite (binding_container_name_matches (project a) Hname).
Qed.

(** The first run of the sample. *)
Lemma binding_names_registered_container_witness :
  map lb_containerName (cs_loadBalancers demo_create_request)
  = map cd_name
      (rtd_containerDefinitions
         (task_definition_request (image demo_args) "shop"
            (execution_role_arn "123456789012") "us-east-1"
            (secrets_of "us-east-1" "123456789012" demo_present_paths)))
  ∧ map cd_name
      (rtd_containerDefinitions
         (task_definition_request (image demo_args) "shop"
            (execution_role_arn "123456789012") "us-east-1"
            (secrets_of "us-east-1" "123456789012" demo_present_paths)))
    = [project demo_args +:+ "-container"].
Proof.
  apply (binding_names_registered_container demo_args demo_world).
  - reflexivity.
  - vm_compute. do 9 right. left. reflexivity.
  - vm_compute. do 14 right. left. reflexivity.
Defined.

(** ** What a run leaves behind *)

Lemma load_env_map_found (a : Args) (w : World) (doc v : yaml) :
  files w !! env_yml a = Some (Document doc) → top_level "variables" doc = Some v →
  load_env_map a w = mkRes (Ret v) w [].
Proof.
  intros Hf Hv. rewrite (load_env_map_document a w doc Hf).
  destruct doc as [|b|z|s|l|kvs]; simpl in *; try done. by rewrite Hv.
Qed.

(** X6. Nothing is rolled back: a run that stops at a missing secret has
    already looked up the target group and, when the project had none and
    the creation is accepted, created it; the group stays in the account
    after the exit with status 1. *)
Theorem missing_secret_leaves_target_group
  (a : Args) (w : World) (doc : yaml) (paths : list (string * string)) :
  files w !! env_yml a = Some (Document doc) →
  top_level "variables" doc = Some (YMap (paths_to_yaml paths)) →
  (∃ k p, In (k, p) paths ∧ ssm_parameters w !! p = None) →
  Forall (λ kp, well_formed_parameter_name (snd kp) = true) paths →
  target_groups w !! (project a +:+ "-tg") = None →
  target_group_creation_accepted w (vpc_id a) (project a) 8000 = true →
  out (main a w) = Exit 1
  ∧ In (Called (Elbv2CreateTargetGroup (target_group_request (vpc_id a) (project a) 8000)))
       (events (main a w))
  ∧ ∃ tgrec, target_groups (world (main a w)) !! (project a +:+ "-tg") = Some tgrec
             ∧ tg_config tgrec = target_group_request (vpc_id a) (project a) 8000.
Proof.
  intros Hf Hv Hmissing Hwf Htg Hacc.
  unfold main, bind, try_except, print.
  rewrite (load_env_map_found a w doc _ Hf Hv).
  rewrite (get_or_create_target_group_absent w (vpc_id a) (project a) 8000 Htg Hacc).
  unfold get_account_id, sts_get_caller_identity_account, register_task_definition, bind, print.
  simpl.
  match goal with
  | |- context [resolve_secrets _ _ ?w1] =>
      destruct (first_missing paths w1 Hmissing) as (checked & k & p & rest & -> & Hall & Hp);
      assert (Hne : p ≠ "");
      [ apply well_formed_parameter_name_nonempty;
        apply Forall_app in Hwf as [_ Hwf]; by apply Forall_cons in Hwf as [Hwf _]
      | rewrite (resolve_secrets_first_missing checked rest k p [] w1 Hall Hp Hne) ]
  end.
  simpl. split; [done|]. split.
  - right. right. right. by left.
  - eexists. split; [apply lookup_insert_eq|done].
Qed.

(** The sample with a second path that the store does not have. *)
Lemma missing_secret_leaves_target_group_witness :
  out (main demo_args demo_world_missing_secret) = Exit 1
  ∧ In (Called (Elbv2CreateTargetGroup
                  (target_group_request (vpc_id demo_args) (project demo_args) 8000)))
       (events (main demo_args demo_world_missing_secret))
  ∧ ∃ tgrec, target_groups (world (main demo_args demo_world_missing_secret))
             !! (project demo_args +:+ "-tg") = Some tgrec
             ∧ tg_config tgrec
               = target_group_request (vpc_id demo_args) (project demo_args) 8000.
Proof.
  apply (missing_secret_leaves_target_group
           demo_args demo_world_missing_secret demo_document demo_paths).
  - vm_compute. reflexivity.
  - reflexivity.
  - exists "API_KEY", "/prod/api_key". split; [right; left; reflexivity|vm_compute; reflexivity].
  - unfold demo_paths. repeat constructor.
  - vm_compute. reflexivity.
  - vm_compute. reflexivity.
Defined.

(** ** The requests of a complete run, in order *)

Lemma calls_of_no_calls (l : list Event) :
  Forall (λ e, is_call e = false) l → calls_of l = [].
Proof. induction 1 as [|[c|s] l He _ IH]; simpl; done. Qed.

(** Whether the lookup of a service is answered depends on the services and
    the clusters of the account only. *)
Lemma service_lookup_answers_ext (w w' : World) (c n : string) :
  services w' = services w → clusters w' = clusters w →
  service_lookup_answers w c n → service_lookup_answers w' c n.
Proof. intros Hsv Hcl. rewrite !service_lookup_answers_iff. by rewrite Hsv, Hcl. Qed.

(** X7. The requests of a run whose configuration is in order, whose
    secrets are all in the store, whose target-group step returns and whose
    lookup of the service is answered, in the order in which they are sent:
    the lookup of the target group (and its creation when there is none);
    the identity call; for each entry of the mapping, in its order, the
    existence check and another identity call; the registration; the two
    lookups of the service; the creation or the update of the service. *)
Theorem complete_run_call_sequence
  (a : Args) (w : World) (doc : yaml) (paths : list (string * string)) :
  files w !! env_yml a = Some (Document doc) →
  top_level "variables" doc = Some (YMap (paths_to_yaml paths)) →
  all_present w paths →
  target_group_step_returns a w →
  service_lookup_answers w (cluster a) (project a +:+ "-service") →
  let name := project a +:+ "-tg" in
  let service_name := project a +:+ "-service" in
  let tg_arn := match target_groups w !! name with
                | Some tg => TargetGroupArn tg
                | None => new_target_group_arn w name
                end in
  let td_arn := task_definition_arn w (project a)
                  (S (revisions (project a) (task_definitions w))) in
  calls_of (events (main a w))
  = Elbv2DescribeTargetGroups [name]
    :: match target_groups w !! name with
       | Some _ => []
       | None => [Elbv2CreateTargetGroup (target_group_request (vpc_id a) (project a) 8000)]
       end
    ++ StsGetCallerIdentity
    :: flat_map (λ kp, [SsmGetParameter (snd kp); StsGetCallerIdentity]) paths
    ++ [ EcsRegisterTaskDefinition
           (task_definition_request (image a) (project a)
              (execution_role_arn (account w)) (region_name w)
              (secrets_of (region_name w) (account w) paths));
         EcsDescribeServices (cluster a) [service_name];
         EcsDescribeServices (cluster a) [service_name];
         service_mutation w (cluster a) service_name td_arn tg_arn
           (PyStr.split "," (subnets a)) (PyStr.split "," (security_groups a)) ].
Proof.
  intros Hf Hv Hall Hstep Hans name service_name tg_arn td_arn.
  subst name service_name tg_arn td_arn.
  unfold target_group_step_returns in Hstep. revert Hstep.
  unfold main, bind, try_except, print.
  rewrite (load_env_map_found a w doc _ Hf Hv).
  destruct (target_groups w !! (project a +:+ "-tg")) as [tg|] eqn:Htg.
  - intros _. rewrite (get_or_create_target_group_found w _ _ _ tg Htg).
    unfold get_account_id, sts_get_caller_identity_account.
    rewrite (register_task_definition_found _ _ _ paths w Hall).
    match goal with
    | |- context [deploy_service ?c ?n ?td ?t ?sn ?sg ?w2] =>
        destruct (deploy_service_events w2 c n td t sn sg
                    (service_lookup_answers_ext w w2 c n eq_refl eq_refl Hans))
          as (tail & Hdep & Htail & _);
        destruct (deploy_service c n td t sn sg w2) as [o3 w3 ev3]
    end.
    simpl in Hdep. subst ev3. pose proof (calls_of_no_calls tail Htail) as Hcalls.
    destruct o3 as [[]|e|code]; simpl;
      rewrite !calls_of_app, calls_of_secret_checks; simpl;
      rewrite ?calls_of_app, Hcalls; simpl; rewrite ?app_nil_r;
      unfold service_mutation, service_found; simpl;
      by rewrite <- ?app_assoc.
  - destruct (target_group_creation_accepted w (vpc_id a) (project a) 8000) eqn:Hacc.
    + intros _. rewrite (get_or_create_target_group_absent w _ _ _ Htg Hacc).
      unfold get_account_id, sts_get_caller_identity_account.
      rewrite (register_task_definition_found _ _ _ paths (set_target_groups _ w) Hall).
      match goal with
      | |- context [deploy_service ?c ?n ?td ?t ?sn ?sg ?w2] =>
          destruct (deploy_service_events w2 c n td t sn sg
                      (service_lookup_answers_ext w w2 c n eq_refl eq_refl Hans))
            as (tail & Hdep & Htail & _);
          destruct (deploy_service c n td t sn sg w2) as [o3 w3 ev3]
      end.
      simpl in Hdep. subst ev3. pose proof (calls_of_no_calls tail Htail) as Hcalls.
      destruct o3 as [[]|e|code]; simpl;
        rewrite !calls_of_app, calls_of_secret_checks; simpl;
        rewrite ?calls_of_app, Hcalls; simpl; rewrite ?app_nil_r;
        unfold service_mutation, service_found; simpl;
        by rewrite <- ?app_assoc.
    + destruct (get_or_create_target_group_refused w _ _ _ Htg Hacc) as (e & ev & -> & _).
      by intros [arn [=]].
Qed.

(** The first run of the sample with the networks of the account. *)
Lemma complete_run_call_sequence_witness :
  calls_of (events (main demo_args_known_networks demo_world))
  = [ Elbv2DescribeTargetGroups ["shop-tg"];
      Elbv2CreateTargetGroup (target_group_request "vpc-0a1b2c" "shop" 8000);
      StsGetCallerIdentity;
      SsmGetParameter "/prod/db_pass";
      StsGetCallerIdentity;
      EcsRegisterTaskDefinition
        (task_definition_request (image demo_args) "shop"
           (execution_role_arn "123456789012") "us-east-1"
           (secrets_of "us-east-1" "123456789012" demo_present_paths));
      EcsDescribeServices "main" ["shop-service"];
      EcsDescribeServices "main" ["shop-service"];
      EcsCreateService
        (create_request "main" "shop-service"
           "arn:aws:ecs:us-east-1:123456789012:task-definition/shop:1"
           "arn:aws:elasticloadbalancing:us-east-1:123456789012:targetgroup/shop-tg/0"
           ["subnet-1"; "subnet-2"] ["sg-1"]) ].
Proof.
  apply (complete_run_call_sequence demo_args_known_networks demo_world
           (YMap [("variables", YMap [("DB_PASS", YStr "/prod/db_pass")])]) demo_present_paths).
  - vm_compute. reflexivity.
  - reflexivity.
  - repeat constructor. vm_compute. eauto.
  - eexists. vm_compute. reflexivity.
  - eexists. vm_compute. reflexivity.
Defined.
